(** * InternalPurchaseTool: the purchase pipeline and its stages

    A shallow embedding of [src/InternalPurchaseTool.py]: the seven stage
    operations (each one remote call plus the interpretation of its
    response), the two pipeline drivers and [main].

    Layout:
    - [PyStr], [PyVal], [ET]: the Python strings, values and XML elements
      the code computes with;
    - [PyLib]: the library functions taken as given ([json.dumps],
      [ET.fromstring], [html.unescape]);
    - [Http]: the remote-call interface of [requests], the console and
      [uuid], as a state-and-exception monad over a [world];
    - [Config], [Tool]: the constants, the helpers and the seven stage
      functions;
    - [Driver]: [run_automatic_mode], [run_manual_mode] and [main], as
      command trees over the stage calls, with their execution;
    - [Reference], [Scenario]: an executable library and concrete worlds;
    - [ResolverProperties], [StageProperties], [DriverProperties]: the
      properties, and [Examples]: the properties at concrete runs.

    Strings are sequences of code points below 256; the Python built-ins
    used by the code ([strip], [split], [lower], [int], [str], [repr],
    [format]) are given here as they behave on such strings.  JSON numbers
    are integers; floating-point numbers are outside the model. *)

From Stdlib Require Import String Ascii List ZArith NArith Bool Lia.
From Stdlib Require Import DecimalString.
Import ListNotations.
Local Set Warnings "-register-all".
Open Scope list_scope.
Open Scope string_scope.

(** ** Python strings *)
Module PyStr.

Definition chr (n : nat) : string := String (ascii_of_nat n) EmptyString.

(** The newline, the single quote, the double quote and the backslash. *)
Definition nl : string := chr 10.
Definition squote : string := chr 39.
Definition dquote : string := chr 34.
Definition backslash : string := chr 92.

Definition code (c : ascii) : nat := nat_of_ascii c.

Definition is_empty (s : string) : bool :=
  match s with EmptyString => true | String _ _ => false end.

(** [bool(s)] of a string. *)
Definition nonempty (s : string) : bool := negb (is_empty s).

(** [str.isspace] of one character: the white space of [str.strip] and
    [str.split]. *)
Definition is_space (c : ascii) : bool :=
  let n := code c in
  ((9 <=? n) && (n <=? 13) || (28 <=? n) && (n <=? 32)
   || (n =? 133) || (n =? 160))%nat.

(** The white space [int] skips around a literal: [Py_ISSPACE] for the
    characters below 128, [str.isspace] above. *)
Definition is_int_space (c : ascii) : bool :=
  let n := code c in
  ((9 <=? n) && (n <=? 13) || (n =? 32) || (n =? 133) || (n =? 160))%nat.

Fixpoint lstrip_with (sp : ascii -> bool) (s : string) : string :=
  match s with
  | EmptyString => EmptyString
  | String c r => if sp c then lstrip_with sp r else s
  end.

Fixpoint rstrip_with (sp : ascii -> bool) (s : string) : string :=
  match s with
  | EmptyString => EmptyString
  | String c r =>
      let r' := rstrip_with sp r in
      if sp c && is_empty r' then EmptyString else String c r'
  end.

(** [s.strip()] *)
Definition strip (s : string) : string :=
  rstrip_with is_space (lstrip_with is_space s).

(** [s.split()]: the maximal runs of characters that are not white space.
    [cur] is the run being read. *)
Fixpoint split_from (cur : string) (s : string) : list string :=
  match s with
  | EmptyString => if is_empty cur then [] else [cur]
  | String c r =>
      if is_space c
      then (if is_empty cur then split_from EmptyString r
            else cur :: split_from EmptyString r)
      else split_from (cur ++ String c EmptyString) r
  end.

Definition split (s : string) : list string := split_from EmptyString s.

(** [str.lower] of one character: A-Z and the upper-case letters of
    Latin-1 (all of 192..222 but the multiplication sign 215). *)
Definition lower_char (c : ascii) : ascii :=
  let n := code c in
  if ((65 <=? n) && (n <=? 90)
      || (192 <=? n) && (n <=? 222) && negb (n =? 215))%nat
  then ascii_of_nat (n + 32) else c.

Fixpoint lower (s : string) : string :=
  match s with
  | EmptyString => EmptyString
  | String c r => String (lower_char c) (lower r)
  end.

Fixpoint contains_char (c : ascii) (s : string) : bool :=
  match s with
  | EmptyString => false
  | String d r => Ascii.eqb c d || contains_char c r
  end.

(** [sep.join(parts)] *)
Fixpoint join (sep : string) (parts : list string) : string :=
  match parts with
  | [] => EmptyString
  | [p] => p
  | p :: rest => p ++ sep ++ join sep rest
  end.

(** [s * n] *)
Fixpoint repeat_string (s : string) (n : nat) : string :=
  match n with
  | O => EmptyString
  | S n' => s ++ repeat_string s n'
  end.

(** [s[:n]] and [s[i:j]] for [0 <= i <= j]. *)
Definition prefix_to (n : nat) (s : string) : string := substring 0 n s.
Definition slice (i j : nat) (s : string) : string := substring i (j - i) s.

(** [str(z)] of an integer. *)
Definition of_Z (z : Z) : string := NilZero.string_of_int (Z.to_int z).

Definition hex_digit (n : N) : string :=
  match N.to_nat n with
  | 0 => "0" | 1 => "1" | 2 => "2" | 3 => "3" | 4 => "4" | 5 => "5"
  | 6 => "6" | 7 => "7" | 8 => "8" | 9 => "9" | 10 => "a" | 11 => "b"
  | 12 => "c" | 13 => "d" | 14 => "e" | _ => "f"
  end%nat.

(** ['%0wx' % n], for [n] below [16^w]. *)
Fixpoint hex_width (w : nat) (n : N) : string :=
  match w with
  | O => EmptyString
  | S w' => hex_width w' (N.div n 16) ++ hex_digit (N.modulo n 16)
  end.


End PyStr.

(** ** Exceptions

    The exception classes the code can meet.  [requests]' own JSON error is
    both a [RequestException] and a [json.JSONDecodeError]; the plain
    [json.JSONDecodeError] is listed because [handle_api_error] tests for
    it.  The messages are the text of [str(error)]. *)
Inductive exn : Type :=
| HTTPError (msg : string)
| ConnectionError (msg : string)
| RequestTimeout (msg : string)
| RequestException (msg : string)
| RequestsJSONDecodeError (msg : string)
| JSONDecodeError (msg : string)
| ParseError
| AttributeError
| TypeError
| ValueError
| KeyError (key : string)
| IndexError
| UnboundLocalError (name : string)
| EOFError
| SystemExit (status : Z)
| NotModelled (what : string).

(** [isinstance(e, Exception)]: all but [SystemExit], which derives from
    [BaseException] only; this is what [except Exception] catches. *)
Definition is_Exception (e : exn) : bool :=
  match e with SystemExit _ => false | _ => true end.

Inductive result (A : Type) : Type :=
| Ok (a : A)
| Raised (e : exn).
Arguments Ok {A} a.
Arguments Raised {A} e.

(** ** Python values *)
Module PyVal.
Import PyStr.

(** The values [response.json()] yields, which are also the values the
    stages pass on: [None], booleans, integers, strings, lists and
    dictionaries (in insertion order, the first binding of a key being the
    one [get] sees). *)
Inductive pyval : Type :=
| PNone
| PBool (b : bool)
| PInt (z : Z)
| PStr (s : string)
| PList (items : list pyval)
| PDict (entries : list (string * pyval)).

(** [bool(v)] *)
Definition truthy (v : pyval) : bool :=
  match v with
  | PNone => false
  | PBool b => b
  | PInt z => negb (Z.eqb z 0)
  | PStr s => nonempty s
  | PList items => match items with [] => false | _ => true end
  | PDict entries => match entries with [] => false | _ => true end
  end.

Definition is_unprintable (n : nat) : bool :=
  ((n <? 32) || (127 <=? n) && (n <=? 160) || (n =? 173))%nat.

(** One character of [repr(s)], [q] being the quote chosen. *)
Definition repr_char (q : ascii) (c : ascii) : string :=
  let n := code c in
  if Ascii.eqb c q || (n =? 92)%nat then backslash ++ String c EmptyString
  else if (n =? 9)%nat then backslash ++ "t"
  else if (n =? 10)%nat then backslash ++ "n"
  else if (n =? 13)%nat then backslash ++ "r"
  else if is_unprintable n then backslash ++ "x" ++ hex_width 2 (N.of_nat n)
  else String c EmptyString.

Fixpoint repr_chars (q : ascii) (s : string) : string :=
  match s with
  | EmptyString => EmptyString
  | String c r => repr_char q c ++ repr_chars q r
  end.

(** [repr(s)] of a string: single quotes, unless the string has a single
    quote and no double quote. *)
Definition repr_str (s : string) : string :=
  let sq := ascii_of_nat 39 in
  let dq := ascii_of_nat 34 in
  let q := if contains_char sq s && negb (contains_char dq s) then dq else sq in
  String q (repr_chars q s) ++ String q EmptyString.

(** [repr(v)] *)
Fixpoint repr (v : pyval) : string :=
  match v with
  | PNone => "None"
  | PBool true => "True"
  | PBool false => "False"
  | PInt z => of_Z z
  | PStr s => repr_str s
  | PList items => "[" ++ join ", " (map repr items) ++ "]"
  | PDict entries =>
      "{" ++ join ", " (map (fun '(k, x) => repr_str k ++ ": " ++ repr x) entries)
          ++ "}"
  end.

(** [str(v)], which is also how an f-string renders [{v}]. *)
Definition str (v : pyval) : string :=
  match v with
  | PStr s => s
  | _ => repr v
  end.

Fixpoint lookup (key : string) (entries : list (string * pyval)) : option pyval :=
  match entries with
  | [] => None
  | (k, x) :: rest => if String.eqb k key then Some x else lookup key rest
  end.

(** [key in d] *)
Definition has_key (key : string) (entries : list (string * pyval)) : bool :=
  match lookup key entries with Some _ => true | None => false end.

(** [v.get(key)]: the value bound to [key], [None] when there is none;
    only a dictionary has the method. *)
Definition get (v : pyval) (key : string) : result pyval :=
  match v with
  | PDict entries =>
      match lookup key entries with
      | Some x => Ok x
      | None => Ok PNone
      end
  | _ => Raised AttributeError
  end.

Definition is_digit (c : ascii) : bool :=
  let n := code c in ((48 <=? n) && (n <=? 57))%nat.

(** The digits of a decimal literal, single underscores allowed between
    two digits.  [acc] is the value read so far, [after_digit] whether the
    last character was a digit. *)
Fixpoint digits_value (acc : Z) (after_digit : bool) (s : string) : option Z :=
  match s with
  | EmptyString => if after_digit then Some acc else None
  | String c r =>
      if is_digit c
      then digits_value (10 * acc + Z.of_nat (code c - 48)) true r
      else if (code c =? 95)%nat && after_digit
      then digits_value acc false r
      else None
  end.

(** [int(s)] of a string, [None] where Python raises [ValueError].  The
    interpreter's limit on the length of a decimal literal is taken to be
    switched off. *)
Definition int_of_string (s : string) : option Z :=
  match rstrip_with is_int_space (lstrip_with is_int_space s) with
  | EmptyString => None
  | String c r as t =>
      if (code c =? 43)%nat then digits_value 0 false r
      else if (code c =? 45)%nat then option_map Z.opp (digits_value 0 false r)
      else digits_value 0 false t
  end.

(** [int(v)] *)
Definition int (v : pyval) : result Z :=
  match v with
  | PInt z => Ok z
  | PBool b => Ok (if b then 1 else 0)%Z
  | PStr s =>
      match int_of_string s with
      | Some z => Ok z
      | None => Raised ValueError
      end
  | _ => Raised TypeError
  end.

End PyVal.

(** ** ElementTree

    An element as [xml.etree.ElementTree] builds it: its tag (a qualified
    name is written [{uri}local]), its [text] ([None] when the element has
    no character data before its first child) and its children.  The code
    reads neither attributes nor tails. *)
Module ET.

Inductive element : Type :=
| Element (tag : string) (text : option string) (children : list element).

Definition tag_of (e : element) : string :=
  match e with Element t _ _ => t end.

Definition text_of (e : element) : option string :=
  match e with Element _ t _ => t end.

Definition children_of (e : element) : list element :=
  match e with Element _ _ c => c end.

(** The first element with tag [tag] in document order among [e] and its
    descendants: the first item of [e.iter(tag)]. *)
Fixpoint first_in (tag : string) (e : element) : option element :=
  match e with
  | Element t _ children =>
      if String.eqb t tag then Some e
      else
        (fix first_of (l : list element) : option element :=
           match l with
           | [] => None
           | c :: rest =>
               match first_in tag c with
               | Some found => Some found
               | None => first_of rest
               end
           end) children
  end.

Fixpoint first_among (tag : string) (l : list element) : option element :=
  match l with
  | [] => None
  | c :: rest =>
      match first_in tag c with
      | Some found => Some found
      | None => first_among tag rest
      end
  end.

(** [e.find(".//tag")]: the first proper descendant of [e] with that tag;
    [e] itself is never the answer. *)
Definition find_descendant (tag : string) (e : element) : option element :=
  first_among tag (children_of e).

End ET.

(** ** The library functions taken as given

    [json.dumps], [ET.fromstring] and [html.unescape] are functions of the
    Python library; the stages are written over any implementation of
    them.  [fromstring] answers [None] where the library raises
    [ParseError]. *)
Class PyLib : Type := {
  json_dumps : PyVal.pyval -> string;
  json_dumps_indent : nat -> PyVal.pyval -> string;
  fromstring : string -> option ET.element;
  unescape : string -> string
}.

(** ** The world: console, randomness and the remote services *)
Module Http.
Import PyStr PyVal.

(** A call of [requests.post] or [requests.patch]. *)
Record request : Type := {
  method : string;
  url : string;
  headers : list (string * string);
  data : string;
  verify : bool
}.

(** What the code reads of a [requests.Response]: [json] is the outcome of
    [response.json()], an exception where the body does not decode. *)
Record response : Type := {
  status_code : Z;
  reason : string;
  response_url : string;
  text : string;
  json : result pyval
}.

(** The outcome of a call: a response, or an exception raised by the
    transport ([ConnectionError], [Timeout], ...). *)
Inductive transport : Type :=
| Responds (r : response)
| Fails (e : exn).

(** What is written to standard output: a [print]ed line, or the prompt of
    an [input]. *)
Inductive output : Type :=
| Line (s : string)
| Prompt (s : string).

(** The state of a run.  [stdin] holds the lines the operator will type,
    [entropy] the integers of the UUIDs to come and [drawn] how many were
    taken; [remote] is the behaviour of the services, given the requests
    sent before; [stdout] and [sent] record what the run wrote and sent. *)
Record world : Type := {
  stdin : list string;
  entropy : nat -> N;
  drawn : nat;
  remote : list request -> request -> transport;
  stdout : list output;
  sent : list request
}.

Definition M (A : Type) : Type := world -> result A * world.

Definition ret {A} (a : A) : M A := fun w => (Ok a, w).

Definition raise {A} (e : exn) : M A := fun w => (Raised e, w).

Definition bind {A B} (m : M A) (k : A -> M B) : M B :=
  fun w =>
    match m w with
    | (Ok a, w') => k a w'
    | (Raised e, w') => (Raised e, w')
    end.

Definition lift {A} (r : result A) : M A := fun w => (r, w).

Declare Scope py_scope.
Delimit Scope py_scope with py.
Notation "x <- m ;; k" := (bind m (fun x => k))
  (at level 61, m at next level, right associativity) : py_scope.
Notation "m ;; k" := (bind m (fun _ => k))
  (at level 61, right associativity) : py_scope.
Open Scope py_scope.

Definition write (o : output) (w : world) : world :=
  {| stdin := stdin w; entropy := entropy w; drawn := drawn w;
     remote := remote w; stdout := stdout w ++ [o]; sent := sent w |}.

(** [print(s)] *)
Definition print (s : string) : M unit := fun w => (Ok tt, write (Line s) w).

(** [input(prompt)]: the prompt is written, the next line is read;
    [EOFError] when there is none. *)
Definition input (prompt : string) : M string :=
  fun w =>
    let w' := write (Prompt prompt) w in
    match stdin w' with
    | [] => (Raised EOFError, w')
    | line :: rest =>
        (Ok line,
         {| stdin := rest; entropy := entropy w'; drawn := drawn w';
            remote := remote w'; stdout := stdout w'; sent := sent w' |})
    end.

(** [uuid.uuid4()], as the UUID's integer. *)
Definition uuid4 : M N :=
  fun w =>
    (Ok (entropy w (drawn w)),
     {| stdin := stdin w; entropy := entropy w; drawn := S (drawn w);
        remote := remote w; stdout := stdout w; sent := sent w |}).

(** [u.hex] and [str(u)] of a UUID. *)
Definition uuid_hex (u : N) : string := hex_width 32 (N.modulo u (2 ^ 128)).

Definition uuid_str (u : N) : string :=
  let h := uuid_hex u in
  slice 0 8 h ++ "-" ++ slice 8 12 h ++ "-" ++ slice 12 16 h ++ "-"
    ++ slice 16 20 h ++ "-" ++ slice 20 32 h.

(** [requests.post(...)] and [requests.patch(...)]: the request is sent
    and the service answers, or the transport raises. *)
Definition send (req : request) : M response :=
  fun w =>
    let w' := {| stdin := stdin w; entropy := entropy w; drawn := drawn w;
                 remote := remote w; stdout := stdout w;
                 sent := sent w ++ [req] |} in
    match remote w (sent w) req with
    | Responds r => (Ok r, w')
    | Fails e => (Raised e, w')
    end.

(** [response.raise_for_status()] *)
Definition raise_for_status (r : response) : M unit :=
  let status := status_code r in
  if ((400 <=? status) && (status <? 500))%Z
  then raise (HTTPError (of_Z status ++ " Client Error: " ++ reason r
                           ++ " for url: " ++ response_url r))
  else if ((500 <=? status) && (status <? 600))%Z
  then raise (HTTPError (of_Z status ++ " Server Error: " ++ reason r
                           ++ " for url: " ++ response_url r))
  else ret tt.

(** [try: response = call; body  except Exception as e: handler].  The
    handler sees the local variable [response], which is unbound when it
    was the call that raised. *)
Definition try_except {A} (call : M response) (body : response -> M A)
    (handler : exn -> option response -> M A) : M A :=
  fun w =>
    match call w with
    | (Raised e, w1) =>
        if is_Exception e then handler e None w1 else (Raised e, w1)
    | (Ok r, w1) =>
        match body r w1 with
        | (Raised e, w2) =>
            if is_Exception e then handler e (Some r) w2 else (Raised e, w2)
        | done => done
        end
    end.

(** [getattr(response, 'text', '')]: reading the variable [response]
    comes first, and raises when it is unbound. *)
Definition getattr_text (response : option response) : M string :=
  match response with
  | Some r => ret (text r)
  | None => raise (UnboundLocalError "response")
  end.

(** The statuses [raise_for_status] raises on. *)
Definition http_error (status : Z) : bool :=
  ((400 <=? status) && (status <? 600))%Z.

(** The world after [req] is sent, after a UUID is drawn, and after
    [lines] are printed, first to last. *)
Definition sending (req : request) (w : world) : world :=
  {| stdin := stdin w; entropy := entropy w; drawn := drawn w;
     remote := remote w; stdout := stdout w; sent := sent w ++ [req] |}.

Definition drawing (w : world) : world :=
  {| stdin := stdin w; entropy := entropy w; drawn := S (drawn w);
     remote := remote w; stdout := stdout w; sent := sent w |}.

Definition printed (lines : list string) (w : world) : world :=
  fold_left (fun w' line => write (Line line) w') lines w.


(** [d[key]] of the dictionary of service addresses. *)
Fixpoint getitem (d : list (string * string)) (key : string) : result string :=
  match d with
  | [] => Raised (KeyError key)
  | (k, x) :: rest => if String.eqb k key then Ok x else getitem rest key
  end.

End Http.

(** ** Configuration constants *)
Module Config.
Import PyVal.

Definition DEFAULT_ENV_SUBDOMAIN : string := "test".

Definition SHOPPER_API_BASE_URL_TEMPLATE : string :=
  "https://shopper.api.int.{env}-godaddy.com/v1".
Definition SSO_API_BASE_URL_TEMPLATE : string :=
  "https://sso.{env}-godaddy.com/v1/api".
Definition PAYMENT_API_BASE_URL_TEMPLATE : string :=
  "https://payment.api.{env}-godaddy.com/v1".
Definition BASKET_API_URL_TEMPLATE : string :=
  "https://gdcomm.{env}.glbt1.gdg/WscgdBasket/WscgdBasket.dll".
Definition ENCRYPT_API_BASE_URL : string := "http://0.0.0.0:3001/api".

Definition VERIFY_SSL_BASKET_API : bool := false.

Definition DEFAULT_PASSWORD : string := "eToolsXML4".
Definition DEFAULT_PIN : string := "1024".
Definition AUDIT_CLIENT_IP : string := "localhost".

Definition DEFAULT_CONTACT_INFO : pyval :=
  PDict [
    ("address", PDict [
       ("address1", PStr "123 Main St");
       ("address2", PStr "Suite 100");
       ("city", PStr "Seattle");
       ("state", PStr "WA");
       ("postalCode", PStr "98101");
       ("country", PStr "US")]);
    ("nameFirst", PStr "Manoj");
    ("nameLast", PStr "Paudel");
    ("organization", PStr "Test");
    ("phoneWork", PStr "+15555555555");
    ("phoneWorkExtension", PStr "");
    ("phoneHome", PStr "");
    ("phoneMobile", PStr "");
    ("fax", PStr "")].

(** [DEFAULT_CARD_DETAILS]: a dictionary read only at its six fixed keys. *)
Record card_details : Type := {
  pan : string;
  type : string;
  expMonth : Z;
  expYear : Z;
  cvv : Z;
  nameOnCard : string
}.

Definition DEFAULT_CARD_DETAILS : card_details :=
  {| pan := "4716885367556942";
     type := "Visa";
     expMonth := 12;
     expYear := 2029;
     cvv := 737;
     nameOnCard := "Manoj Paudel" |}.

Definition DEFAULT_BILLING_CONTACT_INFO : pyval :=
  PDict [
    ("taxId", PStr "26394653330");
    ("contact", PDict [
       ("nameFirst", PStr "Manoj");
       ("nameLast", PStr "Paudel");
       ("phone", PStr "+15555555555");
       ("organization", PStr "Test");
       ("addressMailing", PDict [
          ("city", PStr "Seattle");
          ("country", PStr "US");
          ("postalCode", PStr "98101");
          ("state", PStr "WA");
          ("address1", PStr "123 Main St");
          ("address2", PStr "Suite 100")])])].

Definition DEFAULT_CURRENCY : string := "USD".
Definition DEFAULT_BILLING_COUNTRY : string := "US".

Definition DEFAULT_ADD_TO_CART_COUNTRY_CODE : string := "US".
Definition DEFAULT_ADD_TO_CART_CURRENCY : string := "USD".
Definition DEFAULT_ADD_TO_CART_PRODUCT_ID : string := "8007".
Definition DEFAULT_SELLER_CONFIG_URI : string :=
  "/v1/31430a42-6f4f-4646-9595-305f614957be/seller-configs/4e0ea080-99ab-4973-85c6-391556676f08".
Definition DEFAULT_MARKET_ID : string := "en-us".

End Config.

(** ** The tool: helpers and stage functions *)
Module Tool.
Import PyStr PyVal ET Http Config.

(** Every character of [s] is a decimal digit (so is the empty string). *)
Fixpoint all_digits (s : string) : bool :=
  match s with
  | EmptyString => true
  | String c r => is_digit c && all_digits r
  end.

Definition prepend (s : string) (r : result string) : result string :=
  match r with
  | Ok t => Ok (s ++ t)
  | Raised e => Raised e
  end.

(** [template.format(env=environment)].  [field] is [None] in literal
    text and holds the name read so far inside a replacement field.  Only
    plain field names are modelled: a conversion, a format specification,
    an attribute or an index in a field is reported as [NotModelled]. *)
Fixpoint format (field : option string) (template environment : string)
  : result string :=
  match template, field with
  | EmptyString, None => Ok EmptyString
  | EmptyString, Some _ => Raised ValueError
  | String c rest, None =>
      if (code c =? 123)%nat then
        match rest with
        | String c' rest' =>
            if (code c' =? 123)%nat
            then prepend "{" (format None rest' environment)
            else format (Some EmptyString) rest environment
        | EmptyString => Raised ValueError
        end
      else if (code c =? 125)%nat then
        match rest with
        | String c' rest' =>
            if (code c' =? 125)%nat
            then prepend "}" (format None rest' environment)
            else Raised ValueError
        | EmptyString => Raised ValueError
        end
      else prepend (String c EmptyString) (format None rest environment)
  | String c rest, Some name =>
      if (code c =? 125)%nat then
        if String.eqb name "env"
        then prepend environment (format None rest environment)
        else if all_digits name then Raised IndexError
        else Raised (KeyError name)
      else if (code c =? 123)%nat then Raised ValueError
      else if contains_char c "!:.[]" then Raised (NotModelled "format field")
      else format (Some (name ++ String c EmptyString)) rest environment
  end.


(** The field [key] is missing from the dictionary, or its value is one
    Python takes for false ([None], [""], [0], [False], [[]], [{}]). *)
Definition absent_or_falsy (key : string) (d : list (string * pyval)) : Prop :=
  lookup key d = None \/ exists v, lookup key d = Some v /\ truthy v = false.


(** The dictionary of service addresses, [env_urls]. *)
Definition env_urls_t : Type := list (string * string).

Section WithLibrary.
Context {lib : PyLib}.

(** [get_api_url(template, environment)] *)
Definition get_api_url (template environment : string) : result string :=
  format None template environment.

(** [handle_api_error(error, operation, response_text)]: the chain of
    [isinstance] tests, first match first. *)
Definition handle_api_error (error : exn) (operation response_text : string)
  : M unit :=
  match error with
  | HTTPError msg =>
      print ("HTTP error occurred during " ++ operation ++ ": " ++ msg) ;;
      if nonempty response_text
      then print ("Response content: " ++ response_text)
      else ret tt
  | ConnectionError msg =>
      print ("Connection error occurred during " ++ operation ++ ": " ++ msg)
  | RequestTimeout msg =>
      print ("Timeout error occurred during " ++ operation ++ ": " ++ msg)
  | RequestException msg | RequestsJSONDecodeError msg =>
      print ("An unexpected error occurred during " ++ operation ++ ": " ++ msg)
  | JSONDecodeError _ =>
      print ("Failed to decode JSON from " ++ operation
               ++ " response. Response: " ++ response_text)
  | _ => ret tt
  end.

Definition post (url : string) (headers : list (string * string))
    (data : string) : M response :=
  send {| method := "POST"; url := url; headers := headers; data := data;
          verify := true |}.

(** The [except Exception as e] clause every stage ends with:
    [handle_api_error(e, operation, getattr(response, 'text', ''))], then
    [return None] (written out, or by falling off the end). *)
Definition on_error (operation : string) (e : exn)
    (response : option response) : M pyval :=
  response_text <- getattr_text response ;;
  handle_api_error e operation response_text ;;
  ret PNone.

(** [create_shopper(env_urls, login_name, email)] *)
Definition create_shopper (env_urls : env_urls_t) (login_name email : string)
  : M pyval :=
  print (nl ++ "Attempting to create a new shopper with login: " ++ login_name
            ++ " and email: " ++ email ++ "...") ;;
  base <- lift (getitem env_urls "SHOPPER_API_BASE_URL") ;;
  let url := base ++ "/shoppers?auditClientIp=" ++ AUDIT_CLIENT_IP in
  let headers := [("Content-Type", "application/json")] in
  let payload :=
    PDict [
      ("privateLabelId", PInt 1);
      ("loginName", PStr login_name);
      ("email", PStr email);
      ("auth", PDict [
         ("password", PStr DEFAULT_PASSWORD);
         ("pin", PStr DEFAULT_PIN)]);
      ("contact", PDict [
         ("nameFirst", PStr "eComm");
         ("nameLast", PStr "Automation");
         ("organization", PStr "test");
         ("address", PStr "");
         ("phoneWork", PStr "");
         ("phoneWorkExtension", PStr "");
         ("phoneHome", PStr "");
         ("phoneMobile", PStr "");
         ("fax", PStr "")]);
      ("preference", PDict [
         ("currency", PStr "USD");
         ("marketId", PStr "en-US");
         ("emailFormat", PStr "");
         ("allowedCommunicationTypes", PList [])])] in
  try_except (post url headers (json_dumps payload))
    (fun response =>
       raise_for_status response ;;
       response_json <- lift (json response) ;;
       field <- lift (get response_json "shopperId") ;;
       let shopper_id := str field in
       if nonempty shopper_id then
         print ("Successfully created shopper! Shopper ID: " ++ shopper_id) ;;
         ret (PStr shopper_id)
       else
         print "Shopper ID not found in the response." ;;
         ret PNone)
    (on_error "shopper creation").

(** [get_jwt_token(env_urls, shopper_id)] *)
Definition get_jwt_token (env_urls : env_urls_t) (shopper_id : pyval)
  : M pyval :=
  print (nl ++ "Attempting to get JWT token for shopper ID: "
            ++ str shopper_id ++ "...") ;;
  base <- lift (getitem env_urls "SSO_API_BASE_URL") ;;
  let url := base ++ "/token" in
  let headers := [("Content-Type", "application/json")] in
  let payload :=
    PDict [("username", shopper_id); ("password", PStr DEFAULT_PASSWORD)] in
  try_except (post url headers (json_dumps payload))
    (fun response =>
       raise_for_status response ;;
       response_json <- lift (json response) ;;
       primary <- lift (get response_json "jwtToken") ;;
       jwt_token <- (if truthy primary then ret primary
                     else lift (get response_json "data")) ;;
       if truthy jwt_token then
         print "Successfully retrieved JWT token." ;;
         ret jwt_token
       else
         print "JWT token not found in the response." ;;
         print ("Response content: " ++ text response) ;;
         ret PNone)
    (on_error "JWT token retrieval").

(** [patch_shopper(env_urls, shopper_id, jwt_token)] *)
Definition patch_shopper (env_urls : env_urls_t) (shopper_id jwt_token : pyval)
  : M pyval :=
  print (nl ++ "Attempting to patch shopper ID: " ++ str shopper_id ++ "...") ;;
  base <- lift (getitem env_urls "SHOPPER_API_BASE_URL") ;;
  let url := base ++ "/shoppers/" ++ str shopper_id ++ "?auditClientIp="
                  ++ AUDIT_CLIENT_IP in
  let headers :=
    [("Authorization", "sso-jwt " ++ str jwt_token);
     ("Content-Type", "application/json")] in
  let payload := PDict [("contact", DEFAULT_CONTACT_INFO)] in
  try_except
    (send {| method := "PATCH"; url := url; headers := headers;
             data := json_dumps payload; verify := true |})
    (fun response =>
       raise_for_status response ;;
       print "Shopper patched successfully!" ;;
       print ("Response status code: " ++ of_Z (status_code response)) ;;
       print ("Response content: " ++ text response) ;;
       ret PNone)
    (on_error "shopper patching").

(** [encrypt_card(card_number)] *)
Definition encrypt_card (card_number : string) : M pyval :=
  print (nl ++ "Attempting to encrypt card number...") ;;
  let url := ENCRYPT_API_BASE_URL ++ "/encrypt" in
  let headers := [("content-type", "application/json")] in
  let payload := PDict [("env", PStr "test"); ("ccnumber", PStr card_number)] in
  try_except (post url headers (json_dumps payload))
    (fun response =>
       raise_for_status response ;;
       response_json <- lift (json response) ;;
       encrypted_number <- lift (get response_json "ccEncrypted") ;;
       if truthy encrypted_number then
         print "Card encrypted successfully!" ;;
         ret encrypted_number
       else
         print "Encrypted card number not found in the response." ;;
         print ("Response content: " ++ text response) ;;
         ret PNone)
    (on_error "card encryption").

(** The body of the payment-profile request. *)
Definition payment_profile_payload (encrypted_card_number : pyval)
    (card_type currency : string) : pyval :=
  PDict [
    ("creditCard", PDict [
       ("number", encrypted_card_number);
       ("type", PStr card_type);
       ("nameOnCard", PStr (nameOnCard DEFAULT_CARD_DETAILS));
       ("expMonth", PInt (expMonth DEFAULT_CARD_DETAILS));
       ("expYear", PInt (expYear DEFAULT_CARD_DETAILS));
       ("cvv", PInt (cvv DEFAULT_CARD_DETAILS))]);
    ("status", PStr "CREATE");
    ("currency", PStr currency);
    ("billTo", DEFAULT_BILLING_CONTACT_INFO);
    ("source", PStr "checkout")].

(** [create_payment_profile(env_urls, shopper_id, jwt_token,
    encrypted_card_number, card_type, billing_country, currency)] *)
Definition create_payment_profile (env_urls : env_urls_t)
    (shopper_id jwt_token encrypted_card_number : pyval)
    (card_type billing_country currency : string) : M pyval :=
  print (nl ++ "Attempting to create payment profile for shopper ID: "
            ++ str shopper_id ++ "...") ;;
  base <- lift (getitem env_urls "PAYMENT_API_BASE_URL") ;;
  let url := base ++ "/paymentprofiles" in
  request_id <- uuid4 ;;
  idempotent_id <- uuid4 ;;
  let headers :=
    [("Authorization", "sso-jwt " ++ str jwt_token);
     ("X-Request-Id", uuid_str request_id);
     ("idempotentId", uuid_str idempotent_id);
     ("Content-Type", "application/json")] in
  let payload :=
    payment_profile_payload encrypted_card_number card_type currency in
  try_except (post url headers (json_dumps payload))
    (fun response =>
       raise_for_status response ;;
       response_json <- lift (json response) ;;
       payment_profile_id <- lift (get response_json "profileID") ;;
       if truthy payment_profile_id then
         print ("Payment profile created successfully! Payment Profile ID: "
                  ++ str payment_profile_id) ;;
         ret (PStr (str payment_profile_id))
       else
         print "Payment Profile ID not found in the response." ;;
         print ("Response content: " ++ text response) ;;
         ret PNone)
    (on_error "payment profile creation").

(** [name="value"] *)
Definition xml_attr (name value : string) : string :=
  name ++ "=" ++ dquote ++ value ++ dquote.

(** The SOAP envelope of the [AddItem] call. *)
Definition basket_payload (shopper_id : pyval)
    (country_code currency product_id : string) : string :=
  join nl [
    "<SOAP:Envelope "
      ++ xml_attr "xmlns:SOAP" "http://schemas.xmlsoap.org/soap/envelope/" ++ " "
      ++ xml_attr "xmlns:soapenc" "http://schemas.xmlsoap.org/soap/encoding/" ++ " "
      ++ xml_attr "xmlns:tns" "urn:WscgdBasketService" ++ " "
      ++ xml_attr "xmlns:types" "urn:WscgdBasketService/encodedTypes" ++ " "
      ++ xml_attr "xmlns:xsd" "http://www.w3.org/2001/XMLSchema" ++ " "
      ++ xml_attr "xmlns:xsi" "http://www.w3.org/2001/XMLSchema-instance" ++ ">";
    "    <SOAP:Body "
      ++ xml_attr "SOAP:encodingStyle" "http://schemas.xmlsoap.org/soap/encoding/"
      ++ ">";
    "        <tns:AddItem>";
    "            <bstrShopperID>" ++ str shopper_id ++ "</bstrShopperID>";
    "            <bstrRequestXML>";
    "                <itemRequest " ++ xml_attr "transactionCurrency" currency ++ " "
      ++ xml_attr "bill_to_country" country_code ++ ">";
    "                    <item " ++ xml_attr "productid" product_id ++ " "
      ++ xml_attr "itemTrackingCode" "TestNG" ++ "></item>";
    "                </itemRequest>";
    "            </bstrRequestXML>";
    "        </tns:AddItem>";
    "    </SOAP:Body>";
    "</SOAP:Envelope>"].

(** [ET.fromstring(text)] *)
Definition parse_xml (text : string) : M element :=
  match fromstring text with
  | Some root => ret root
  | None => raise ParseError
  end.

(** [node is not None and node.text]: the text of a node that is there and
    whose text is neither [None] nor empty. *)
Definition node_text (node : option element) : option string :=
  match node with
  | Some (Element _ (Some t) _) => if nonempty t then Some t else None
  | _ => None
  end.

(** The [<return>] node of the basket's answer:
    [root.find(".//{urn:WscgdBasketService}return")] and, when that finds
    nothing, [root.find(".//return")]. *)
Definition find_return_node (root : element) : option element :=
  match find_descendant "{urn:WscgdBasketService}return" root with
  | Some node => Some node
  | None => find_descendant "return" root
  end.

(** The three outcomes of reading the basket's answer.  The code reports
    them on the console only; here the branch taken is also returned. *)
Inductive CartAdditionResult : Type :=
| success
| reported_failure (message : string)
| unparseable_response.

(** The reading of the basket's answer in [add_item_to_cart]: from
    [root = ET.fromstring(response.text)] to the end of the [try] block. *)
Definition interpret_basket_response (response_text : string)
  : M CartAdditionResult :=
  root <- parse_xml response_text ;;
  let return_node := find_return_node root in
  match node_text return_node with
  | Some return_text =>
      let unescaped_xml_str := unescape return_text in
      print ("Unescaped Basket API Return Content: " ++ unescaped_xml_str) ;;
      inner_root <- parse_xml unescaped_xml_str ;;
      let message_node := find_descendant "MESSAGE" inner_root in
      match node_text message_node with
      | Some basket_message =>
          print ("Basket API Message: " ++ basket_message) ;;
          if String.eqb (lower basket_message) "success" then
            print "Item added to cart successfully!" ;;
            ret success
          else
            print ("Item add to cart operation reported '" ++ basket_message
                     ++ "'.") ;;
            ret (reported_failure basket_message)
      | None =>
          print "Could not find <MESSAGE> in unescaped Basket API response." ;;
          ret unparseable_response
      end
  | None =>
      print "Could not find <return> tag or its content in Basket API response." ;;
      ret unparseable_response
  end.

(** [add_item_to_cart(env_urls, shopper_id, country_code, currency,
    product_id)] *)
Definition add_item_to_cart (env_urls : env_urls_t) (shopper_id : pyval)
    (country_code currency product_id : string) : M pyval :=
  print (nl ++ "Attempting to add product ID '" ++ product_id
            ++ "' to cart for shopper ID: " ++ str shopper_id ++ "...") ;;
  url <- lift (getitem env_urls "BASKET_API_URL") ;;
  request_id <- uuid4 ;;
  let headers :=
    [("SOAPAction", "#AddItem");
     ("X-Request-Id", uuid_str request_id);
     ("Content-Type", "text/xml; charset=utf-8")] in
  let payload := basket_payload shopper_id country_code currency product_id in
  try_except
    (send {| method := "POST"; url := url; headers := headers;
             data := payload; verify := VERIFY_SSL_BASKET_API |})
    (fun response =>
       raise_for_status response ;;
       print ("Raw Basket API Response Text: " ++ text response) ;;
       interpret_basket_response (text response) ;;
       ret PNone)
    (on_error "add to cart").

(** The body of the purchase request, [stored_id] being
    [int(payment_profile_id)]. *)
Definition purchase_payload (stored_id : Z) (cvv config_uri : string) : pyval :=
  PDict [
    ("standardBasket", PBool true);
    ("paymentDetails", PDict [
       ("storedMethods",
        PList [PDict [("id", PInt stored_id); ("cvv", PStr cvv)]]);
       ("sellerConfigUri", PStr config_uri)])].

(** [perform_purchase(env_urls, shopper_id, jwt_token, payment_profile_id,
    cvv, config_uri)] *)
Definition perform_purchase (env_urls : env_urls_t)
    (shopper_id jwt_token payment_profile_id : pyval)
    (cvv config_uri : string) : M pyval :=
  print (nl ++ "Attempting to perform purchase for shopper ID: "
            ++ str shopper_id ++ "...") ;;
  base <- lift (getitem env_urls "PAYMENT_API_BASE_URL") ;;
  let url := base ++ "/purchase" in
  request_id <- uuid4 ;;
  let headers :=
    [("Authorization", "sso-jwt " ++ str jwt_token);
     ("X-Request-Id", uuid_str request_id);
     ("X-Market-Id", DEFAULT_MARKET_ID);
     ("Content-Type", "application/json")] in
  stored_id <- lift (int payment_profile_id) ;;
  let payload := purchase_payload stored_id cvv config_uri in
  try_except (post url headers (json_dumps payload))
    (fun response =>
       raise_for_status response ;;
       response_json <- lift (json response) ;;
       order_id <- lift (get response_json "orderId") ;;
       if truthy order_id then
         print ("Purchase completed successfully! Order ID: " ++ str order_id) ;;
         print ("Response status code: " ++ of_Z (status_code response)) ;;
         print ("Response content: " ++ json_dumps_indent 2 response_json) ;;
         ret (PStr (str order_id))
       else
         print "Order ID not found in purchase response." ;;
         print ("Response status code: " ++ of_Z (status_code response)) ;;
         print ("Response content: " ++ json_dumps_indent 2 response_json) ;;
         ret PNone)
    (on_error "purchase").

End WithLibrary.
End Tool.

(** ** The pipeline drivers

    The drivers are written as command trees: what a driver does with the
    console, with [uuid] and with the stage functions is a node of the
    tree, and what it does next depends on the answer.  [exec] runs a tree
    in a [world], each stage call being the stage function of [Tool];
    [traces] lists the runs a tree allows, whatever the stages and the
    operator answer. *)
Module Driver.
Import PyStr PyVal Http Config Tool.

(** A call of a stage function, with its arguments. *)
Inductive stage_call : Type :=
| CreateShopper (env_urls : env_urls_t) (login_name email : string)
| GetJwtToken (env_urls : env_urls_t) (shopper_id : pyval)
| PatchShopper (env_urls : env_urls_t) (shopper_id jwt_token : pyval)
| EncryptCard (card_number : string)
| CreatePaymentProfile (env_urls : env_urls_t)
    (shopper_id jwt_token encrypted_card_number : pyval)
    (card_type billing_country currency : string)
| AddItemToCart (env_urls : env_urls_t) (shopper_id : pyval)
    (country_code currency product_id : string)
| PerformPurchase (env_urls : env_urls_t)
    (shopper_id jwt_token payment_profile_id : pyval)
    (cvv config_uri : string).

Inductive prog (R : Type) : Type :=
| Return (r : R)
| Say (line : string) (k : prog R)
| Ask (prompt : string) (k : string -> prog R)
| Uuid4 (k : N -> prog R)
| Call (c : stage_call) (k : pyval -> prog R)
| Throw (e : exn).
Arguments Return {R} r.
Arguments Say {R} line k.
Arguments Ask {R} prompt k.
Arguments Uuid4 {R} k.
Arguments Call {R} c k.
Arguments Throw {R} e.

Fixpoint pbind {A B} (m : prog A) (f : A -> prog B) : prog B :=
  match m with
  | Return a => f a
  | Say line k => Say line (pbind k f)
  | Ask prompt k => Ask prompt (fun x => pbind (k x) f)
  | Uuid4 k => Uuid4 (fun u => pbind (k u) f)
  | Call c k => Call c (fun v => pbind (k v) f)
  | Throw e => Throw e
  end.

Declare Scope prog_scope.
Delimit Scope prog_scope with prog.
Notation "x <- m ;; k" := (pbind m (fun x => k))
  (at level 61, m at next level, right associativity) : prog_scope.
Notation "m ;; k" := (pbind m (fun _ => k))
  (at level 61, right associativity) : prog_scope.

Definition say (line : string) : prog unit := Say line (Return tt).
Definition ask (prompt : string) : prog string := Ask prompt Return.
Definition uuid : prog N := Uuid4 Return.
Definition call (c : stage_call) : prog pyval := Call c Return.
(** [sys.exit(status)] raises [SystemExit]. *)
Definition sys_exit {R} (status : Z) : prog R := Throw (SystemExit status).

Open Scope prog_scope.

(** [run_automatic_mode(env_urls)] *)
Definition run_automatic_mode (env_urls : env_urls_t) : prog unit :=
  say "Running in AUTOMATIC mode - all steps will use defaults" ;;
  say (nl ++ "--- Creating New Shopper (Automatic Mode) ---") ;;
  u <- uuid ;;
  let unique_id := prefix_to 8 (uuid_hex u) in
  let login_name := "ecomQA" ++ unique_id in
  let email := "ecommqatest+" ++ unique_id ++ "@mailinator.com" in
  shopper_id <- call (CreateShopper env_urls login_name email) ;;
  if negb (truthy shopper_id) then
    say "Failed to create shopper. Exiting." ;;
    sys_exit 1
  else
  jwt_token <- call (GetJwtToken env_urls shopper_id) ;;
  if negb (truthy jwt_token) then
    say "Failed to retrieve JWT token. Exiting." ;;
    sys_exit 1
  else
  call (PatchShopper env_urls shopper_id jwt_token) ;;
  say (nl ++ "--- Card and Payment Profile Configuration (Automatic Mode) ---") ;;
  say ("Using default card details: PAN=" ++ pan DEFAULT_CARD_DETAILS
         ++ ", Type=" ++ type DEFAULT_CARD_DETAILS
         ++ ", Country=" ++ DEFAULT_BILLING_COUNTRY
         ++ ", Currency=" ++ DEFAULT_CURRENCY) ;;
  encrypted_pan <- call (EncryptCard (pan DEFAULT_CARD_DETAILS)) ;;
  if negb (truthy encrypted_pan) then
    say "Failed to encrypt card number. Exiting." ;;
    sys_exit 1
  else
  payment_profile_id <-
    call (CreatePaymentProfile env_urls shopper_id jwt_token encrypted_pan
            (type DEFAULT_CARD_DETAILS) DEFAULT_BILLING_COUNTRY
            DEFAULT_CURRENCY) ;;
  if negb (truthy payment_profile_id) then
    say "Failed to create payment profile. Exiting." ;;
    sys_exit 1
  else
  say (nl ++ "--- Add to Cart Configuration (Automatic Mode) ---") ;;
  say ("Using default Add to Cart details: Country="
         ++ DEFAULT_ADD_TO_CART_COUNTRY_CODE
         ++ ", Currency=" ++ DEFAULT_ADD_TO_CART_CURRENCY
         ++ ", Product ID=" ++ DEFAULT_ADD_TO_CART_PRODUCT_ID) ;;
  call (AddItemToCart env_urls shopper_id DEFAULT_ADD_TO_CART_COUNTRY_CODE
          DEFAULT_ADD_TO_CART_CURRENCY DEFAULT_ADD_TO_CART_PRODUCT_ID) ;;
  say (nl ++ "--- Purchase Configuration (Automatic Mode) ---") ;;
  say ("Using default Seller Config URI: " ++ DEFAULT_SELLER_CONFIG_URI) ;;
  order_id <-
    call (PerformPurchase env_urls shopper_id jwt_token payment_profile_id
            (of_Z (cvv DEFAULT_CARD_DETAILS)) DEFAULT_SELLER_CONFIG_URI) ;;
  say (nl ++ "--- AUTOMATIC MODE COMPLETE ---") ;;
  say "All steps completed using default values." ;;
  if truthy order_id then
    say ("Order ID: " ++ str order_id ++ " and Shopper ID: " ++ str shopper_id)
  else
    say ("Shopper ID: " ++ str shopper_id ++ " (Purchase failed - no Order ID)").

(** [run_manual_mode(env_urls)] *)
Definition run_manual_mode (env_urls : env_urls_t) : prog unit :=
  say "Running in MANUAL mode - you will be prompted for each step" ;;
  line <- ask (nl ++ "Enter an existing Shopper ID or press Enter to create a new shopper: ") ;;
  let user_input := strip line in
  shopper_id <-
    (if negb (nonempty user_input) then
       u <- uuid ;;
       let unique_id := prefix_to 8 (uuid_hex u) in
       let login_name := "ecomQA" ++ unique_id in
       let email := "ecommqatest+" ++ unique_id ++ "@mailinator.com" in
       call (CreateShopper env_urls login_name email)
     else
       say ("Using existing shopper ID: " ++ user_input) ;;
       Return (PStr user_input)) ;;
  if negb (truthy shopper_id) then
    say "Failed to determine shopper ID. Exiting." ;;
    sys_exit 1
  else
  jwt_token <- call (GetJwtToken env_urls shopper_id) ;;
  if negb (truthy jwt_token) then
    say "Failed to retrieve JWT token. Exiting." ;;
    sys_exit 1
  else
  call (PatchShopper env_urls shopper_id jwt_token) ;;
  say (nl ++ "--- Card and Payment Profile Configuration ---") ;;
  line <- ask ("Enter PAN, Card Type, Billing Country, Currency (e.g., 1234... Visa US USD) "
                 ++ "or press Enter to use defaults (" ++ pan DEFAULT_CARD_DETAILS
                 ++ ", " ++ type DEFAULT_CARD_DETAILS ++ ", "
                 ++ DEFAULT_BILLING_COUNTRY ++ ", " ++ DEFAULT_CURRENCY ++ "): ") ;;
  let card_input := strip line in
  let defaults := (pan DEFAULT_CARD_DETAILS, type DEFAULT_CARD_DETAILS,
                   DEFAULT_BILLING_COUNTRY, DEFAULT_CURRENCY) in
  card <-
    (if nonempty card_input then
       match split card_input with
       | [pan; card_type; billing_country; currency] =>
           say ("Using custom card details: PAN=" ++ pan ++ ", Type=" ++ card_type
                  ++ ", Country=" ++ billing_country
                  ++ ", Currency=" ++ currency) ;;
           Return (pan, card_type, billing_country, currency)
       | _ =>
           say "Invalid input format for card details. Using default values." ;;
           Return defaults
       end
     else
       say "Using default card details." ;;
       Return defaults) ;;
  let '(pan, card_type, billing_country, currency) := card in
  encrypted_pan <- call (EncryptCard pan) ;;
  if negb (truthy encrypted_pan) then
    say "Failed to encrypt card number. Exiting." ;;
    sys_exit 1
  else
  payment_profile_id <-
    call (CreatePaymentProfile env_urls shopper_id jwt_token encrypted_pan
            card_type billing_country currency) ;;
  if negb (truthy payment_profile_id) then
    say "Failed to create payment profile. Exiting." ;;
    sys_exit 1
  else
  say (nl ++ "--- Add to Cart Configuration ---") ;;
  line <- ask ("Enter Country Code, Currency, Product ID (e.g., US USD 12345) "
                 ++ "or press Enter to use defaults ("
                 ++ DEFAULT_ADD_TO_CART_COUNTRY_CODE ++ ", "
                 ++ DEFAULT_ADD_TO_CART_CURRENCY ++ ", "
                 ++ DEFAULT_ADD_TO_CART_PRODUCT_ID ++ "): ") ;;
  let add_to_cart_input := strip line in
  let cart_defaults := (DEFAULT_ADD_TO_CART_COUNTRY_CODE,
                        DEFAULT_ADD_TO_CART_CURRENCY,
                        DEFAULT_ADD_TO_CART_PRODUCT_ID) in
  cart <-
    (if nonempty add_to_cart_input then
       match split add_to_cart_input with
       | [cart_country_code; cart_currency; cart_product_id] =>
           say ("Using custom Add to Cart details: Country=" ++ cart_country_code
                  ++ ", Currency=" ++ cart_currency
                  ++ ", Product ID=" ++ cart_product_id) ;;
           Return (cart_country_code, cart_currency, cart_product_id)
       | _ =>
           say "Invalid input format for Add to Cart details. Using default values." ;;
           Return cart_defaults
       end
     else
       say "Using default Add to Cart details." ;;
       Return cart_defaults) ;;
  let '(cart_country_code, cart_currency, cart_product_id) := cart in
  call (AddItemToCart env_urls shopper_id cart_country_code cart_currency
          cart_product_id) ;;
  say (nl ++ "--- Purchase Configuration ---") ;;
  line <- ask ("Enter Seller Config URI or press Enter to use default ("
                 ++ DEFAULT_SELLER_CONFIG_URI ++ "): ") ;;
  let purchase_config_input := strip line in
  let config_uri :=
    if nonempty purchase_config_input then purchase_config_input
    else DEFAULT_SELLER_CONFIG_URI in
  say ("Using Seller Config URI: " ++ config_uri) ;;
  order_id <-
    call (PerformPurchase env_urls shopper_id jwt_token payment_profile_id
            (of_Z (cvv DEFAULT_CARD_DETAILS)) config_uri) ;;
  say (nl ++ "--- MANUAL MODE COMPLETE ---") ;;
  say "All steps completed." ;;
  if truthy order_id then
    say ("Order ID: " ++ str order_id ++ " and Shopper ID: " ++ str shopper_id)
  else
    say ("Shopper ID: " ++ str shopper_id ++ " (Purchase failed - no Order ID)").

Fixpoint say_each {R} (lines : list string) (k : prog R) : prog R :=
  match lines with
  | [] => k
  | line :: rest => Say line (say_each rest k)
  end.

(** The dictionary [env_urls] that [main] builds for an environment. *)
Definition build_env_urls (environment : string) : result env_urls_t :=
  match get_api_url SHOPPER_API_BASE_URL_TEMPLATE environment with
  | Raised e => Raised e
  | Ok shopper =>
  match get_api_url SSO_API_BASE_URL_TEMPLATE environment with
  | Raised e => Raised e
  | Ok sso =>
  match get_api_url PAYMENT_API_BASE_URL_TEMPLATE environment with
  | Raised e => Raised e
  | Ok payment =>
  match get_api_url BASKET_API_URL_TEMPLATE environment with
  | Raised e => Raised e
  | Ok basket =>
      Ok [("SHOPPER_API_BASE_URL", shopper);
          ("SSO_API_BASE_URL", sso);
          ("PAYMENT_API_BASE_URL", payment);
          ("BASKET_API_URL", basket)]
  end end end end.

(** [main()] *)
Definition main : prog unit :=
  say (repeat_string "=" 60) ;;
  say "           Shopper Management CLI Tool" ;;
  say (repeat_string "=" 60) ;;
  line <- ask ("Enter environment subdomain (e.g., 'dev', 'staging', 'prod') "
                 ++ "or press Enter to use default ('" ++ DEFAULT_ENV_SUBDOMAIN
                 ++ "') and run automatically: ") ;;
  let env_input := strip line in
  let auto_mode := negb (nonempty env_input) in
  let environment :=
    if nonempty env_input then env_input else DEFAULT_ENV_SUBDOMAIN in
  say ("Using environment: " ++ environment) ;;
  match build_env_urls environment with
  | Raised e => Throw e
  | Ok env_urls =>
      say (nl ++ "API Endpoints for this run:") ;;
      say_each (map (fun '(key, value) => "  " ++ key ++ ": " ++ value) env_urls)
        (if auto_mode then run_automatic_mode env_urls
         else run_manual_mode env_urls)
  end.

Close Scope prog_scope.

(** *** Runs of a command tree *)

(** One step of a run: a line printed, a prompt answered by the operator
    (or failing), a UUID drawn, a stage called and returning (or raising),
    an exception raised by the driver itself. *)
Inductive step : Type :=
| Said (line : string)
| Asked (prompt reply : string)
| AskRaised (prompt : string) (e : exn)
| Drew (u : N)
| Called (c : stage_call) (answer : pyval)
| CallRaised (c : stage_call) (e : exn)
| Threw (e : exn).

(** [traces p t]: [t] is a complete run of [p].  A run ends when the tree
    returns or when something raises: nothing in the drivers catches an
    exception. *)
Inductive traces {R : Type} : prog R -> list step -> Prop :=
| traces_return r :
    traces (Return r) []
| traces_say line k t :
    traces k t -> traces (Say line k) (Said line :: t)
| traces_ask prompt k reply t :
    traces (k reply) t -> traces (Ask prompt k) (Asked prompt reply :: t)
| traces_ask_raised prompt k e :
    traces (Ask prompt k) [AskRaised prompt e]
| traces_uuid k u t :
    traces (k u) t -> traces (Uuid4 k) (Drew u :: t)
| traces_call c k answer t :
    traces (k answer) t -> traces (Call c k) (Called c answer :: t)
| traces_call_raised c k e :
    traces (Call c k) [CallRaised c e]
| traces_throw e :
    traces (Throw e) [Threw e].

(** The two drivers. *)
Inductive run_mode : Type := Automatic | Manual.

Definition driver (mode : run_mode) (env_urls : env_urls_t) : prog unit :=
  match mode with
  | Automatic => run_automatic_mode env_urls
  | Manual => run_manual_mode env_urls
  end.

(** The stage a step calls, whether the call returned or raised. *)
Definition call_of (s : step) : option stage_call :=
  match s with
  | Called c _ | CallRaised c _ => Some c
  | _ => None
  end.

(** The stage calls of a run, in order. *)
Fixpoint calls_of (t : list step) : list stage_call :=
  match t with
  | [] => []
  | s :: rest =>
      match call_of s with
      | Some c => c :: calls_of rest
      | None => calls_of rest
      end
  end.

(** The stages whose failure ends the run: account provisioning, token
    issuance, card encryption and payment registration. *)
Definition fatal (c : stage_call) : bool :=
  match c with
  | CreateShopper _ _ _ | GetJwtToken _ _ | EncryptCard _
  | CreatePaymentProfile _ _ _ _ _ _ _ => true
  | PatchShopper _ _ _ | AddItemToCart _ _ _ _ _
  | PerformPurchase _ _ _ _ _ _ => false
  end.

(** The exception a step raises, and the one a run ends with. *)
Definition exn_of (s : step) : option exn :=
  match s with
  | AskRaised _ e | CallRaised _ e | Threw e => Some e
  | _ => None
  end.

Fixpoint final_exn (t : list step) : option exn :=
  match t with
  | [] => None
  | [s] => exn_of s
  | _ :: rest => final_exn rest
  end.

(** Every fatal stage that returns nothing is followed by one line and
    [sys.exit(1)], and by nothing else. *)
Fixpoint fatal_failures_abort (t : list step) : Prop :=
  match t with
  | [] => True
  | Called c answer :: rest =>
      (fatal c = true -> truthy answer = false ->
       exists msg, rest = [Said msg; Threw (SystemExit 1)])
      /\ fatal_failures_abort rest
  | _ :: rest => fatal_failures_abort rest
  end.

(** Every call of [create_payment_profile] comes right after a call of
    [encrypt_card] and is given what that call returned.  [prev] is the
    step before [t]. *)
Fixpoint registration_follows_encryption (prev : option step) (t : list step)
  : Prop :=
  match t with
  | [] => True
  | s :: rest =>
      (forall env_urls shopper_id jwt_token encrypted card_type country currency,
          call_of s = Some (CreatePaymentProfile env_urls shopper_id jwt_token
                              encrypted card_type country currency) ->
          exists card_number,
            prev = Some (Called (EncryptCard card_number) encrypted))
      /\ registration_follows_encryption (Some s) rest
  end.

(** Every call of [perform_purchase] is given the verification code [cvv]. *)
Fixpoint purchases_use_cvv (cvv : string) (t : list step) : Prop :=
  match t with
  | [] => True
  | s :: rest =>
      (forall env_urls shopper_id jwt_token profile cvv' config_uri,
          call_of s = Some (PerformPurchase env_urls shopper_id jwt_token
                              profile cvv' config_uri) ->
          cvv' = cvv)
      /\ purchases_use_cvv cvv rest
  end.

(** A block that prints one line and returns. *)
Definition says_once {A} (m : prog A) : Prop :=
  exists msg a, m = Say msg (Return a).

Section WithLibrary.
Context {lib : PyLib}.

(** The stage function a call stands for. *)
Definition perform (c : stage_call) : M pyval :=
  match c with
  | CreateShopper env_urls login_name email =>
      create_shopper env_urls login_name email
  | GetJwtToken env_urls shopper_id =>
      get_jwt_token env_urls shopper_id
  | PatchShopper env_urls shopper_id jwt_token =>
      patch_shopper env_urls shopper_id jwt_token
  | EncryptCard card_number =>
      encrypt_card card_number
  | CreatePaymentProfile env_urls shopper_id jwt_token encrypted_card_number
      card_type billing_country currency =>
      create_payment_profile env_urls shopper_id jwt_token
        encrypted_card_number card_type billing_country currency
  | AddItemToCart env_urls shopper_id country_code currency product_id =>
      add_item_to_cart env_urls shopper_id country_code currency product_id
  | PerformPurchase env_urls shopper_id jwt_token payment_profile_id cvv
      config_uri =>
      perform_purchase env_urls shopper_id jwt_token payment_profile_id cvv
        config_uri
  end.

(** Running a tree in a world: the steps taken, the result and the world
    left.  A line is [print]ed, a prompt goes through [input], a UUID is
    drawn as [uuid4] draws it, and a stage call runs the stage function. *)
Fixpoint exec {R} (p : prog R) (w : world) : list step * (result R * world) :=
  match p with
  | Return r => ([], (Ok r, w))
  | Say line k =>
      let '(t, out) := exec k (write (Line line) w) in (Said line :: t, out)
  | Ask prompt k =>
      match input prompt w with
      | (Ok reply, w') =>
          let '(t, out) := exec (k reply) w' in (Asked prompt reply :: t, out)
      | (Raised e, w') => ([AskRaised prompt e], (Raised e, w'))
      end
  | Uuid4 k =>
      let u := entropy w (drawn w) in
      let '(t, out) := exec (k u) (drawing w) in (Drew u :: t, out)
  | Call c k =>
      match perform c w with
      | (Ok answer, w') =>
          let '(t, out) := exec (k answer) w' in (Called c answer :: t, out)
      | (Raised e, w') => ([CallRaised c e], (Raised e, w'))
      end
  | Throw e => ([Threw e], (Raised e, w))
  end.

(** The exit status of the process: 0 when [main] returns, the status of
    [sys.exit], and 1 when an exception reaches the top. *)
Definition exit_status {R} (r : result R) : Z :=
  match r with
  | Ok _ => 0
  | Raised (SystemExit status) => status
  | Raised _ => 1
  end.

End WithLibrary.
End Driver.

(** ** A small executable library

    An implementation of [PyLib] for running the model on concrete worlds.
    [dumps] follows [json.dumps]; [unescape_xml] knows the references
    [&lt;], [&gt;], [&amp;], [&quot;], [&apos;] and [&#39;] only, and
    [parse] reads documents of elements without attributes, with
    character data and these references.  The properties below hold for
    every [PyLib]; this one is used to evaluate runs. *)
Module Reference.
Import PyStr PyVal ET.

Definition json_char (c : ascii) : string :=
  let n := code c in
  if (n =? 34)%nat then backslash ++ dquote
  else if (n =? 92)%nat then backslash ++ backslash
  else if (n =? 10)%nat then backslash ++ "n"
  else if (n =? 13)%nat then backslash ++ "r"
  else if (n =? 9)%nat then backslash ++ "t"
  else if (n =? 8)%nat then backslash ++ "b"
  else if (n =? 12)%nat then backslash ++ "f"
  else if ((n <? 32) || (127 <? n))%nat
  then backslash ++ "u" ++ hex_width 4 (N.of_nat n)
  else String c EmptyString.

Fixpoint json_chars (s : string) : string :=
  match s with
  | EmptyString => EmptyString
  | String c r => json_char c ++ json_chars r
  end.

Definition json_string (s : string) : string :=
  dquote ++ json_chars s ++ dquote.

(** [json.dumps(v)] *)
Fixpoint dumps (v : pyval) : string :=
  match v with
  | PNone => "null"
  | PBool true => "true"
  | PBool false => "false"
  | PInt z => of_Z z
  | PStr s => json_string s
  | PList items => "[" ++ join ", " (map dumps items) ++ "]"
  | PDict entries =>
      "{" ++ join ", " (map (fun '(k, x) => json_string k ++ ": " ++ dumps x)
                          entries) ++ "}"
  end.

(** [json.dumps(v, indent=width)], [depth] levels deep. *)
Fixpoint dumps_at (width depth : nat) (v : pyval) : string :=
  let inner := nl ++ repeat_string " " (width * S depth) in
  let outer := nl ++ repeat_string " " (width * depth) in
  match v with
  | PList [] => "[]"
  | PDict [] => "{}"
  | PList items =>
      "[" ++ inner ++ join ("," ++ inner) (map (dumps_at width (S depth)) items)
          ++ outer ++ "]"
  | PDict entries =>
      "{" ++ inner
          ++ join ("," ++ inner)
               (map (fun '(k, x) =>
                       json_string k ++ ": " ++ dumps_at width (S depth) x)
                  entries)
          ++ outer ++ "}"
  | _ => dumps v
  end.

(** The character a reference stands for, and what follows it, when [s]
    (the text after an ampersand) starts with one of the known names. *)
Definition reference (s : string) : option (string * string) :=
  if prefix "lt;" s then Some ("<", substring 3 (String.length s - 3) s)
  else if prefix "gt;" s then Some (">", substring 3 (String.length s - 3) s)
  else if prefix "amp;" s then Some ("&", substring 4 (String.length s - 4) s)
  else if prefix "quot;" s then Some (dquote, substring 5 (String.length s - 5) s)
  else if prefix "apos;" s then Some (squote, substring 5 (String.length s - 5) s)
  else if prefix "#39;" s then Some (squote, substring 4 (String.length s - 4) s)
  else None.

(** The length of the name of the reference [s] starts with, 0 if none. *)
Definition reference_length (s : string) : nat :=
  match reference s with
  | Some (_, rest) => String.length s - String.length rest
  | None => 0
  end.

(** Replaces the known references.  [skip] counts the characters of a
    reference just replaced that are still to be passed over. *)
Fixpoint unescape_from (skip : nat) (s : string) : string :=
  match s with
  | EmptyString => EmptyString
  | String c r =>
      match skip with
      | S skip' => unescape_from skip' r
      | O =>
          if (code c =? 38)%nat then
            match reference r with
            | Some (ch, _) => ch ++ unescape_from (reference_length r) r
            | None => String c (unescape_from 0 r)
            end
          else String c (unescape_from 0 r)
      end
  end.

Definition unescape_xml (s : string) : string := unescape_from 0 s.

Inductive token : Type :=
| TOpen (tag : string)
| TClose (tag : string)
| TEmpty (tag : string)
| TText (s : string).

Definition last_is_slash (s : string) : bool :=
  match String.length s with
  | O => false
  | S n => String.eqb (substring n 1 s) "/"
  end.

(** The token of the markup between [<] and [>]; [None] for what this
    reader does not read (attributes, declarations, comments). *)
Definition tag_token (inside : string) : option token :=
  if is_empty inside || contains_char " " inside || contains_char "=" inside
     || contains_char "!" inside || contains_char "?" inside
  then None
  else
    match inside with
    | String "/" name => if is_empty name then None else Some (TClose name)
    | _ =>
        if last_is_slash inside
        then Some (TEmpty (substring 0 (String.length inside - 1) inside))
        else Some (TOpen inside)
    end.

(** [tokens markup acc s]: [acc] is the text (or, when [markup], the
    inside of a tag) read so far. *)
Fixpoint tokens (markup : bool) (acc : string) (s : string)
  : option (list token) :=
  match s with
  | EmptyString =>
      if markup then None
      else Some (if is_empty acc then [] else [TText (unescape_xml acc)])
  | String c r =>
      if markup then
        if (code c =? 62)%nat then
          match tag_token acc, tokens false EmptyString r with
          | Some t, Some rest => Some (t :: rest)
          | _, _ => None
          end
        else if (code c =? 60)%nat then None
        else tokens true (acc ++ String c EmptyString) r
      else
        if (code c =? 60)%nat then
          match tokens true EmptyString r with
          | Some rest =>
              Some (if is_empty acc then rest else TText (unescape_xml acc) :: rest)
          | None => None
          end
        else if (code c =? 62)%nat then None
        else tokens false (acc ++ String c EmptyString) r
  end.

(** An element being read: its tag, its text so far, whether a child was
    seen (character data after a child is tail, not text), and its
    children, last first. *)
Record frame : Type := {
  f_tag : string;
  f_text : string;
  f_child : bool;
  f_children : list element
}.

Definition close_frame (f : frame) : element :=
  Element (f_tag f)
    (if is_empty (f_text f) then None else Some (f_text f))
    (rev (f_children f)).

Definition add_child (e : element) (f : frame) : frame :=
  {| f_tag := f_tag f; f_text := f_text f; f_child := true;
     f_children := e :: f_children f |}.

Fixpoint all_space (s : string) : bool :=
  match s with
  | EmptyString => true
  | String c r => is_space c && all_space r
  end.

(** [build stack root ts]: [stack] holds the open elements, innermost
    first; [root] the document element once it is closed. *)
Fixpoint build (stack : list frame) (root : option element) (ts : list token)
  : option element :=
  match ts with
  | [] => match stack with [] => root | _ => None end
  | t :: rest =>
      match t, stack, root with
      | TText s, [], _ => if all_space s then build [] root rest else None
      | TText s, f :: up, _ =>
          let f' := if f_child f then f
                    else {| f_tag := f_tag f; f_text := f_text f ++ s;
                            f_child := false; f_children := f_children f |} in
          build (f' :: up) root rest
      | TOpen tag, [], Some _ => None
      | TOpen tag, _, _ =>
          build ({| f_tag := tag; f_text := EmptyString; f_child := false;
                    f_children := [] |} :: stack) root rest
      | TEmpty tag, [], Some _ => None
      | TEmpty tag, [], None => build [] (Some (Element tag None [])) rest
      | TEmpty tag, f :: up, _ =>
          build (add_child (Element tag None []) f :: up) root rest
      | TClose tag, [], _ => None
      | TClose tag, f :: up, _ =>
          if String.eqb tag (f_tag f) then
            match up with
            | [] => build [] (Some (close_frame f)) rest
            | parent :: up' =>
                build (add_child (close_frame f) parent :: up') root rest
            end
          else None
      end
  end.

Definition parse (s : string) : option element :=
  match tokens false EmptyString s with
  | Some ts => build [] None ts
  | None => None
  end.

#[export] Instance library : PyLib := {|
  json_dumps := dumps;
  json_dumps_indent := fun width v => dumps_at width 0 v;
  fromstring := parse;
  unescape := unescape_xml
|}.

End Reference.

(** ** Concrete worlds

    Worlds for running the model: the services answer from a script, one
    answer per request in the order the requests are sent (a connection
    error once the script is used up), and the operator types the given
    lines. *)
Module Scenario.
Import PyStr PyVal Http Config Tool Driver.

Definition scripted (answers : list transport) (history : list request)
    (_ : request) : transport :=
  nth (List.length history) answers (Fails (ConnectionError "connection refused")).

Definition world_of (lines : list string) (answers : list transport) : world :=
  {| stdin := lines;
     entropy := fun n => N.of_nat (S n);
     drawn := 0;
     remote := scripted answers;
     stdout := [];
     sent := [] |}.

(** A response with the given status, body text and decoded body. *)
Definition answer (status : Z) (body : string) (decoded : result pyval)
  : transport :=
  Responds {| status_code := status; reason := "reason";
              response_url := "url"; text := body; json := decoded |}.

Definition ok_json (v : pyval) : transport :=
  answer 200 (Reference.dumps v) (Ok v).

Definition not_json : result pyval :=
  Raised (RequestsJSONDecodeError "Expecting value: line 1 column 1 (char 0)").

(** The address dictionary of the environment [test]. *)
Definition test_urls : env_urls_t :=
  [("SHOPPER_API_BASE_URL", "https://shopper.api.int.test-godaddy.com/v1");
   ("SSO_API_BASE_URL", "https://sso.test-godaddy.com/v1/api");
   ("PAYMENT_API_BASE_URL", "https://payment.api.test-godaddy.com/v1");
   ("BASKET_API_URL", "https://gdcomm.test.glbt1.gdg/WscgdBasket/WscgdBasket.dll")].

(** A basket answer whose return content is the escaped document
    [<response><MESSAGE>Success</MESSAGE></response>]. *)
Definition basket_success : string :=
  "<Envelope><Body><AddItemResponse><return>"
    ++ "&amp;lt;response&amp;gt;&amp;lt;MESSAGE&amp;gt;Success&amp;lt;/MESSAGE&amp;gt;&amp;lt;/response&amp;gt;"
    ++ "</return></AddItemResponse></Body></Envelope>".

(** The answers of a run in which every stage succeeds. *)
Definition all_good : list transport :=
  [ok_json (PDict [("shopperId", PStr "12345")]);
   ok_json (PDict [("jwtToken", PStr "token-1")]);
   answer 200 "{}" (Ok (PDict []));
   ok_json (PDict [("ccEncrypted", PStr "ENCRYPTED")]);
   ok_json (PDict [("profileID", PInt 777)]);
   answer 200 basket_success not_json;
   ok_json (PDict [("orderId", PStr "ORD-9")])].

(** The token service answers 500 after the account was created. *)
Definition token_fails : list transport :=
  [ok_json (PDict [("shopperId", PStr "12345")]);
   answer 500 "Internal Server Error" not_json].



(** C4 as the specification words it, in its first part: whenever both
    token fields are present in a good response, the primary one is
    returned. *)
Definition token_choice_as_claimed : Prop :=
  forall (lib : PyLib) (env_urls : env_urls_t) (shopper_id : pyval)
         (w : world) (base : string) (resp : response)
         (d : list (string * pyval)) (primary fallback : pyval),
    getitem env_urls "SSO_API_BASE_URL" = Ok base ->
    (forall req, remote w (sent w) req = Responds resp) ->
    http_error (status_code resp) = false ->
    json resp = Ok (PDict d) ->
    lookup "jwtToken" d = Some primary ->
    lookup "data" d = Some fallback ->
    fst (get_jwt_token env_urls shopper_id w) = Ok primary.

(** The escaped document of a successful cart addition, the document it
    stands for and the tree of that document. *)
Definition escaped_success_document : string :=
  "&lt;response&gt;&lt;MESSAGE&gt;Success&lt;/MESSAGE&gt;&lt;/response&gt;".



End Scenario.

(** * Properties *)

(** ** Environment resolver *)
Module ResolverProperties.
Import PyStr PyVal Http Config Tool Driver.







End ResolverProperties.

(** ** Stage operations *)
Module StageProperties.
Import PyStr PyVal ET Http Config Tool.

(** *** Running a stage by rewriting *)

Lemma raise_for_status_ok (r : response) (w : world) :
  http_error (status_code r) = false -> raise_for_status r w = (Ok tt, w).
Proof.
  unfold http_error, raise_for_status. intros E.
  destruct (400 <=? status_code r)%Z eqn:A;
    destruct (status_code r <? 500)%Z eqn:B;
    destruct (500 <=? status_code r)%Z eqn:C;
    destruct (status_code r <? 600)%Z eqn:D;
    simpl in *; try reflexivity; try discriminate; lia.
Qed.

Lemma raise_for_status_error (r : response) (w : world) :
  http_error (status_code r) = true ->
  exists msg, raise_for_status r w = (Raised (HTTPError msg), w).
Proof.
  unfold http_error, raise_for_status. intros E.
  destruct (400 <=? status_code r)%Z eqn:A;
    destruct (status_code r <? 500)%Z eqn:B;
    destruct (500 <=? status_code r)%Z eqn:C;
    destruct (status_code r <? 600)%Z eqn:D;
    simpl in *; try discriminate; try (eexists; reflexivity); lia.
Qed.

Lemma bind_ret {A B} (a : A) (k : A -> M B) (w : world) :
  bind (ret a) k w = k a w.
Proof. reflexivity. Qed.

Lemma bind_print {B} (s : string) (k : unit -> M B) (w : world) :
  bind (print s) k w = k tt (write (Line s) w).
Proof. reflexivity. Qed.

Lemma bind_lift_Ok {A B} (a : A) (k : A -> M B) (w : world) :
  bind (lift (Ok a)) k w = k a w.
Proof. reflexivity. Qed.

Lemma bind_lift_Raised {A B} (e : exn) (k : A -> M B) (w : world) :
  bind (lift (Raised e)) k w = (Raised e, w).
Proof. reflexivity. Qed.

Lemma bind_uuid4 {B} (k : N -> M B) (w : world) :
  bind uuid4 k w = k (entropy w (drawn w)) (drawing w).
Proof. reflexivity. Qed.

Lemma bind_raise_for_status_ok {B} (r : response) (k : unit -> M B)
    (w : world) :
  http_error (status_code r) = false ->
  bind (raise_for_status r) k w = k tt w.
Proof.
  intros E. unfold bind. rewrite raise_for_status_ok by assumption.
  reflexivity.
Qed.

Lemma try_except_responds {A} (req : request) (r : response)
    (body : response -> M A) (handler : exn -> option response -> M A)
    (w : world) :
  remote w (sent w) req = Responds r ->
  try_except (send req) body handler w
  = match body r (sending req w) with
    | (Raised e, w2) =>
        if is_Exception e then handler e (Some r) w2 else (Raised e, w2)
    | done => done
    end.
Proof. intros E. unfold try_except, send. rewrite E. reflexivity. Qed.

Lemma try_except_fails {A} (req : request) (e : exn)
    (body : response -> M A) (handler : exn -> option response -> M A)
    (w : world) :
  remote w (sent w) req = Fails e ->
  is_Exception e = true ->
  try_except (send req) body handler w = handler e None (sending req w).
Proof. intros E He. unfold try_except, send. rewrite E, He. reflexivity. Qed.

Create Rewrite HintDb py_run.
#[export] Hint Rewrite @bind_ret @bind_print @bind_lift_Ok @bind_lift_Raised
  @bind_uuid4 : py_run.

Ltac run_stage :=
  repeat (autorewrite with py_run; cbn [remote sent write drawing sending]).

(** From the start of a stage to the decoded body of a good answer. *)
Ltac enter_stage Hb Hr Hs Hj :=
  run_stage; rewrite Hb; run_stage; unfold post;
  erewrite try_except_responds by apply Hr;
  rewrite bind_raise_for_status_ok by assumption;
  rewrite Hj; run_stage.

(** *** Quiet computations *)








Section WithLibrary.
Context {lib : PyLib}.




(** The [except] clause of a stage, entered with [response] bound, logs
    and gives [None]. *)
Lemma on_error_bound (operation : string) (e : exn) (r : response) (w : world) :
  exists w', on_error operation e (Some r) w = (Ok PNone, w')
             /\ sent w' = sent w /\ remote w' = remote w.
Proof.
  unfold on_error. cbn [getattr_text]. run_stage.
  destruct e; cbn [handle_api_error]; run_stage;
    try (eexists; split; [reflexivity | split; reflexivity]).
  destruct (nonempty (text r)); run_stage;
    eexists; (split; [reflexivity | split; reflexivity]).
Qed.

(** Entered with [response] unbound, it raises instead. *)
Lemma on_error_unbound (operation : string) (e : exn) (w : world) :
  on_error operation e None w = (Raised (UnboundLocalError "response"), w).
Proof. reflexivity. Qed.

(** *** Account provisioning *)

(** C3 (second half, where the code departs from it): when the creation
    response is good and its body has no [shopperId] field,
    [create_shopper] does not return [None]: it returns the string
    ["None"], the text of [str(None)], which the drivers take for an
    account identifier. *)
Theorem create_shopper_missing_id_returns_text (env_urls : env_urls_t)
    (login_name email : string) (w : world) (base : string) (resp : response)
    (d : list (string * pyval)) :
  getitem env_urls "SHOPPER_API_BASE_URL" = Ok base ->
  (forall req, remote w (sent w) req = Responds resp) ->
  http_error (status_code resp) = false ->
  json resp = Ok (PDict d) ->
  lookup "shopperId" d = None ->
  fst (create_shopper env_urls login_name email w) = Ok (PStr "None").
Proof.
  intros Hb Hr Hs Hj Hl.
  unfold create_shopper. enter_stage Hb Hr Hs Hj.
  cbn [get]. rewrite Hl. run_stage. reflexivity.
Qed.

(** The first half of C3 holds for an identifier that is a string with
    at least one character. *)
Lemma create_shopper_returns_id (env_urls : env_urls_t)
    (login_name email : string) (w : world) (base : string) (resp : response)
    (d : list (string * pyval)) (id : string) :
  getitem env_urls "SHOPPER_API_BASE_URL" = Ok base ->
  (forall req, remote w (sent w) req = Responds resp) ->
  http_error (status_code resp) = false ->
  json resp = Ok (PDict d) ->
  lookup "shopperId" d = Some (PStr id) ->
  nonempty id = true ->
  fst (create_shopper env_urls login_name email w) = Ok (PStr id).
Proof.
  intros Hb Hr Hs Hj Hl Hid.
  unfold create_shopper. enter_stage Hb Hr Hs Hj.
  cbn [get]. rewrite Hl. run_stage.
  cbn [str]. rewrite Hid. run_stage. reflexivity.
Qed.

(** *** Token issuance *)

(** A token request answered with an error status gives no credential. *)
Lemma get_jwt_token_http_error (env_urls : env_urls_t) (shopper_id : pyval)
    (w : world) (base : string) (resp : response) :
  getitem env_urls "SSO_API_BASE_URL" = Ok base ->
  (forall req, remote w (sent w) req = Responds resp) ->
  http_error (status_code resp) = true ->
  fst (get_jwt_token env_urls shopper_id w) = Ok PNone.
Proof.
  intros Hb Hr Hs.
  unfold get_jwt_token. run_stage. rewrite Hb. run_stage.
  unfold post. rewrite try_except_responds with (r := resp) by apply Hr.
  unfold bind at 1.
  match goal with
  | |- context [raise_for_status resp ?w1] =>
      destruct (raise_for_status_error resp w1 Hs) as (msg & ->)
  end.
  cbn [is_Exception].
  match goal with
  | |- context [on_error ?op ?e (Some resp) ?w1] =>
      destruct (on_error_bound op e resp w1) as (w' & -> & _)
  end.
  reflexivity.
Qed.

Lemma absent_or_falsy_get (key : string) (d : list (string * pyval)) :
  absent_or_falsy key d ->
  exists v, get (PDict d) key = Ok v /\ truthy v = false.
Proof.
  intros [E | (v & E & Hv)]; cbn [get]; rewrite E; eauto.
Qed.

(** C4, amended: on a good token response whose body is a dictionary,
    [get_jwt_token] returns the value of [jwtToken] whenever that field is
    present with a value Python takes for true, whatever [data] holds; it
    returns the value of [data] when [jwtToken] is absent or falsy and
    [data] is present and truthy; it returns [None] when each of the two
    fields is absent or falsy, in particular when neither is present. *)
Theorem get_jwt_token_field_choice (env_urls : env_urls_t)
    (shopper_id : pyval) (w : world) (base : string) (resp : response)
    (d : list (string * pyval)) :
  getitem env_urls "SSO_API_BASE_URL" = Ok base ->
  (forall req, remote w (sent w) req = Responds resp) ->
  http_error (status_code resp) = false ->
  json resp = Ok (PDict d) ->
  (forall primary,
      lookup "jwtToken" d = Some primary -> truthy primary = true ->
      fst (get_jwt_token env_urls shopper_id w) = Ok primary)
  /\ (forall fallback,
        absent_or_falsy "jwtToken" d ->
        lookup "data" d = Some fallback -> truthy fallback = true ->
        fst (get_jwt_token env_urls shopper_id w) = Ok fallback)
  /\ (absent_or_falsy "jwtToken" d -> absent_or_falsy "data" d ->
      fst (get_jwt_token env_urls shopper_id w) = Ok PNone)
  /\ (lookup "jwtToken" d = None -> lookup "data" d = None ->
      fst (get_jwt_token env_urls shopper_id w) = Ok PNone).
Proof.
  intros Hb Hr Hs Hj.
  assert (Hnone : absent_or_falsy "jwtToken" d -> absent_or_falsy "data" d ->
                  fst (get_jwt_token env_urls shopper_id w) = Ok PNone).
  { intros Hp Hf. unfold get_jwt_token. enter_stage Hb Hr Hs Hj.
    destruct (absent_or_falsy_get _ _ Hp) as (v & -> & Hv). run_stage.
    rewrite Hv.
    destruct (absent_or_falsy_get _ _ Hf) as (v' & -> & Hv'). run_stage.
    rewrite Hv'. run_stage. reflexivity. }
  repeat split.
  - intros primary Hl Ht. unfold get_jwt_token. enter_stage Hb Hr Hs Hj.
    cbn [get]. rewrite Hl. run_stage.
    rewrite Ht. run_stage. rewrite Ht. run_stage. reflexivity.
  - intros fallback Hp Hl Ht. unfold get_jwt_token. enter_stage Hb Hr Hs Hj.
    destruct (absent_or_falsy_get _ _ Hp) as (v & -> & Hv). run_stage.
    rewrite Hv. cbn [get]. rewrite Hl. run_stage. rewrite Ht. run_stage.
    reflexivity.
  - exact Hnone.
  - intros Hp Hf. apply Hnone; left; assumption.
Qed.


(** *** Contact patching and cart addition: transport failures *)

(** When the transport raises, no response was bound, and reading
    [response] in the [except] clause raises [UnboundLocalError]: the
    failure is neither logged nor swallowed. *)
Lemma patch_shopper_transport_failure (env_urls : env_urls_t)
    (shopper_id jwt_token : pyval) (w : world) (base : string) (e : exn) :
  getitem env_urls "SHOPPER_API_BASE_URL" = Ok base ->
  (forall req, remote w (sent w) req = Fails e) ->
  is_Exception e = true ->
  exists w',
    patch_shopper env_urls shopper_id jwt_token w
    = (Raised (UnboundLocalError "response"), w')
    /\ stdout w'
       = (stdout w ++ [Line (nl ++ "Attempting to patch shopper ID: "
                               ++ str shopper_id ++ "...")])%list.
Proof.
  intros Hb Hr He.
  unfold patch_shopper. run_stage. rewrite Hb. run_stage.
  rewrite try_except_fails with (e := e) by (try apply Hr; assumption).
  rewrite on_error_unbound. eexists. split; reflexivity.
Qed.

Lemma add_item_to_cart_transport_failure (env_urls : env_urls_t)
    (shopper_id : pyval) (country_code currency product_id : string)
    (w : world) (address : string) (e : exn) :
  getitem env_urls "BASKET_API_URL" = Ok address ->
  (forall req, remote w (sent w) req = Fails e) ->
  is_Exception e = true ->
  fst (add_item_to_cart env_urls shopper_id country_code currency product_id w)
  = Raised (UnboundLocalError "response").
Proof.
  intros Hb Hr He.
  unfold add_item_to_cart. run_stage. rewrite Hb. run_stage.
  rewrite try_except_fails with (e := e) by (try apply Hr; assumption).
  rewrite on_error_unbound. reflexivity.
Qed.

(** An error status, on the other hand, is logged and swallowed. *)
Lemma patch_shopper_http_error (env_urls : env_urls_t)
    (shopper_id jwt_token : pyval) (w : world) (base : string)
    (resp : response) :
  getitem env_urls "SHOPPER_API_BASE_URL" = Ok base ->
  (forall req, remote w (sent w) req = Responds resp) ->
  http_error (status_code resp) = true ->
  exists msg w',
    patch_shopper env_urls shopper_id jwt_token w = (Ok PNone, w')
    /\ stdout w'
       = (stdout w
            ++ [Line (nl ++ "Attempting to patch shopper ID: "
                        ++ str shopper_id ++ "...");
                Line ("HTTP error occurred during shopper patching: " ++ msg)]
            ++ (if nonempty (text resp)
                then [Line ("Response content: " ++ text resp)] else []))%list.
Proof.
  intros Hb Hr Hs.
  unfold patch_shopper. run_stage. rewrite Hb. run_stage.
  rewrite try_except_responds with (r := resp) by apply Hr.
  unfold bind at 1.
  match goal with
  | |- context [raise_for_status resp ?w1] =>
      destruct (raise_for_status_error resp w1 Hs) as (msg & ->)
  end.
  cbn [is_Exception]. unfold on_error. cbn [getattr_text handle_api_error].
  run_stage. exists msg.
  destruct (nonempty (text resp)); run_stage; eexists; split;
    try reflexivity; cbn [stdout write sending];
    rewrite <- ?app_assoc; reflexivity.
Qed.

(** *** Reading the basket's answer *)

(** [first_in] looks at the element, then at its children in order. *)
Lemma first_in_unfold (tag t : string) (text : option string)
    (children : list element) :
  first_in tag (Element t text children)
  = if String.eqb t tag then Some (Element t text children)
    else first_among tag children.
Proof.
  cbn [first_in]. destruct (String.eqb t tag); [reflexivity |].
  induction children as [| c rest IH]; [reflexivity |].
  cbn [first_among]. destruct (first_in tag c); [reflexivity | exact IH].
Qed.

Lemma bind_parse_xml_Some {B} (s : string) (root : element)
    (k : element -> M B) (w : world) :
  fromstring s = Some root -> bind (parse_xml s) k w = k root w.
Proof. intros E. unfold parse_xml. rewrite E. reflexivity. Qed.



(** C6: when the basket's answer parses and has no return node under
    either of the two paths, or has one whose text is missing or empty,
    the answer is classified [unparseable_response] and the console says
    that the return tag or its content was not found. *)
Theorem basket_missing_return_unparseable (response_text : string)
    (w : world) (root : element) :
  fromstring response_text = Some root ->
  (find_descendant "{urn:WscgdBasketService}return" root = None
   /\ find_descendant "return" root = None)
  \/ (exists node,
        find_return_node root = Some node
        /\ (text_of node = None \/ text_of node = Some EmptyString)) ->
  interpret_basket_response response_text w
  = (Ok unparseable_response,
     printed ["Could not find <return> tag or its content in Basket API response."]
       w).
Proof.
  intros Hroot Hcase.
  assert (E : node_text (find_return_node root) = None).
  { destruct Hcase as [[Hns Hplain] | (node & Hnode & Htext)].
    - unfold find_return_node. rewrite Hns, Hplain. reflexivity.
    - rewrite Hnode. destruct node as [tag txt children]. cbn in Htext.
      destruct Htext as [-> | ->]; reflexivity. }
  unfold interpret_basket_response.
  rewrite (bind_parse_xml_Some _ _ _ _ Hroot). rewrite E. run_stage.
  reflexivity.
Qed.

(** A document whose root is itself the return element has no return
    node: [find] looks among the descendants only. *)
Lemma root_is_not_its_own_descendant (text : option string) :
  find_return_node (Element "return" text []) = None.
Proof. reflexivity. Qed.

(** On a good answer [add_item_to_cart] prints the raw text, reads it
    with [interpret_basket_response] and returns [None]; an exception of
    the reading goes to the [except] clause. *)
Lemma add_item_to_cart_reads_answer (env_urls : env_urls_t)
    (shopper_id : pyval) (country_code currency product_id : string)
    (w : world) (address : string) (resp : response) :
  getitem env_urls "BASKET_API_URL" = Ok address ->
  (forall req, remote w (sent w) req = Responds resp) ->
  http_error (status_code resp) = false ->
  exists w1,
    stdout w1
    = (stdout w
         ++ [Line (nl ++ "Attempting to add product ID '" ++ product_id
                     ++ "' to cart for shopper ID: " ++ str shopper_id ++ "...");
             Line ("Raw Basket API Response Text: " ++ text resp)])%list
    /\ add_item_to_cart env_urls shopper_id country_code currency product_id w
       = match interpret_basket_response (text resp) w1 with
         | (Ok _, w2) => (Ok PNone, w2)
         | (Raised e, w2) =>
             if is_Exception e
             then on_error "add to cart" e (Some resp) w2
             else (Raised e, w2)
         end.
Proof.
  intros Hb Hr Hs.
  unfold add_item_to_cart. run_stage. rewrite Hb. run_stage.
  erewrite try_except_responds by apply Hr.
  rewrite bind_raise_for_status_ok by assumption. run_stage.
  match goal with
  | |- context [bind (interpret_basket_response _) _ ?w1] => exists w1
  end.
  split.
  - cbn [stdout write sending drawing]. rewrite <- app_assoc. reflexivity.
  - unfold bind at 1.
    destruct (interpret_basket_response _ _) as [[c | e] w2]; reflexivity.
Qed.

(** A basket answer that is not well-formed XML is swallowed, and nothing
    is printed about it: [handle_api_error] has no case for [ParseError]. *)
Lemma parse_error_is_not_logged (operation : string) (resp : response)
    (w : world) :
  on_error operation ParseError (Some resp) w = (Ok PNone, w).
Proof. reflexivity. Qed.

(** *** Payment registration and settlement *)



End WithLibrary.

(** *** Decimal handles *)






End StageProperties.

(** ** Pipeline drivers *)
Module DriverProperties.
Import PyStr PyVal Http Config Tool Driver StageProperties.
Local Open Scope list_scope.

(** *** Reading a run off a command tree *)

Lemma traces_return_inv {R} (r : R) (t : list step) :
  traces (Return r) t -> t = [].
Proof. inversion 1; reflexivity. Qed.

Lemma traces_say_inv {R} (line : string) (k : prog R) (t : list step) :
  traces (Say line k) t -> exists t', t = Said line :: t' /\ traces k t'.
Proof. inversion 1; subst; eauto. Qed.

Lemma traces_ask_inv {R} (prompt : string) (k : string -> prog R)
    (t : list step) :
  traces (Ask prompt k) t ->
  (exists e, t = [AskRaised prompt e])
  \/ (exists reply t', t = Asked prompt reply :: t' /\ traces (k reply) t').
Proof. inversion 1; subst; eauto. Qed.

Lemma traces_uuid_inv {R} (k : N -> prog R) (t : list step) :
  traces (Uuid4 k) t -> exists u t', t = Drew u :: t' /\ traces (k u) t'.
Proof. inversion 1; subst; eauto. Qed.

Lemma traces_call_inv {R} (c : stage_call) (k : pyval -> prog R)
    (t : list step) :
  traces (Call c k) t ->
  (exists e, t = [CallRaised c e])
  \/ (exists answer t', t = Called c answer :: t' /\ traces (k answer) t').
Proof. inversion 1; subst; eauto. Qed.

Lemma traces_throw_inv {R} (e : exn) (t : list step) :
  traces (@Throw R e) t -> t = [Threw e].
Proof. inversion 1; reflexivity. Qed.

(** A block that says one line and returns contributes that line, and the
    run goes on with what it returned. *)
Lemma traces_pbind_says_once {A R} (m : prog A) (f : A -> prog R)
    (t : list step) :
  says_once m -> traces (pbind m f) t ->
  exists msg a t', t = Said msg :: t' /\ traces (f a) t'.
Proof.
  intros (msg & a & ->) Ht. simpl in Ht.
  apply traces_say_inv in Ht. destruct Ht as (t' & -> & Ht). eauto.
Qed.

Ltac prove_says_once :=
  repeat match goal with
    | |- says_once (if ?b then _ else _) => destruct b
    | |- says_once (match ?l with [] => _ | _ :: _ => _ end) => destruct l
    end;
  cbn; do 2 eexists; reflexivity.

(** [explore H leaf]: follows the tree of [H : traces p t] along every
    run, splitting where the tree branches, and calls [leaf] on each run. *)
Ltac explore H leaf :=
  cbn beta iota zeta delta [pbind say ask uuid call sys_exit negb] in H;
  unfold say, ask, uuid, call, sys_exit in H;
  lazymatch type of H with
  | traces (Return _) _ => apply traces_return_inv in H; subst; leaf
  | traces (Throw _) _ => apply traces_throw_inv in H; subst; leaf
  | traces (Say _ _) _ =>
      apply traces_say_inv in H; destruct H as (? & -> & H); explore H leaf
  | traces (Uuid4 _) _ =>
      apply traces_uuid_inv in H; destruct H as (? & ? & -> & H);
      explore H leaf
  | traces (Ask _ _) _ =>
      apply traces_ask_inv in H;
      destruct H as [(? & ->) | (? & ? & -> & H)]; [leaf | explore H leaf]
  | traces (Call _ _) _ =>
      apply traces_call_inv in H;
      destruct H as [(? & ->) | (? & ? & -> & H)]; [leaf | explore H leaf]
  | traces (if negb ?b then _ else _) _ => destruct b eqn:?; explore H leaf
  | traces (if ?b then _ else _) _ => destruct b eqn:?; explore H leaf
  | traces (pbind (if negb ?b then _ else _) _) _ =>
      destruct b eqn:?; explore H leaf
  | traces (pbind (if ?b then _ else _) _) _ =>
      first [ apply traces_pbind_says_once in H;
              [ destruct H as (? & ? & ? & -> & H) | solve [prove_says_once] ]
            | destruct b eqn:? ];
      explore H leaf
  | traces (match ?p with pair _ _ => _ end) _ => destruct p; explore H leaf
  end.

Ltac check_run :=
  cbn [fatal_failures_abort registration_follows_encryption purchases_use_cvv
         call_of];
  repeat split; intros;
  repeat match goal with
    | E : Some _ = Some _ |- _ => inversion E; clear E; subst
    | E : None = Some _ |- _ => discriminate E
    end;
  try discriminate; try congruence; eauto.

(** *** What every run of a driver satisfies *)

Lemma auto_fatal (env_urls : env_urls_t) (t : list step) :
  traces (run_automatic_mode env_urls) t -> fatal_failures_abort t.
Proof. intros Ht. unfold run_automatic_mode in Ht. explore Ht check_run. Qed.

Lemma manual_fatal (env_urls : env_urls_t) (t : list step) :
  traces (run_manual_mode env_urls) t -> fatal_failures_abort t.
Proof. intros Ht. unfold run_manual_mode in Ht. explore Ht check_run. Qed.



Lemma auto_cvv (env_urls : env_urls_t) (t : list step) :
  traces (run_automatic_mode env_urls) t -> purchases_use_cvv "737" t.
Proof. intros Ht. unfold run_automatic_mode in Ht. explore Ht check_run. Qed.


(** *** From a run as a whole to one of its steps *)

Lemma fatal_failures_abort_at (t : list step) :
  fatal_failures_abort t ->
  forall pre c answer post,
    t = pre ++ Called c answer :: post ->
    fatal c = true -> truthy answer = false ->
    exists msg, post = [Said msg; Threw (SystemExit 1)].
Proof.
  intros Ht pre. revert t Ht.
  induction pre as [| s pre IH]; intros t Ht c answer post -> Hc Ha.
  - cbn in Ht. destruct Ht as [Ht _]. auto.
  - cbn [app] in Ht. eapply IH; [| reflexivity | eassumption | eassumption].
    destruct s; cbn in Ht; try assumption. apply Ht.
Qed.



Lemma final_exn_cons (s : step) (t : list step) :
  exn_of s = None -> final_exn (s :: t) = final_exn t.
Proof. intros E. destruct t; [exact E | reflexivity]. Qed.

Lemma final_exn_app (pre : list step) (s : step) (post : list step) :
  final_exn (pre ++ s :: post) = final_exn (s :: post).
Proof.
  induction pre as [| s' pre IH]; [reflexivity |].
  cbn [app]. rewrite <- IH.
  destruct (pre ++ s :: post) as [| x l] eqn:E; [| reflexivity].
  destruct pre; discriminate E.
Qed.

(** A step that raises is the last of its run. *)
Lemma traces_raise_is_last {R} (p : prog R) (t : list step) :
  traces p t ->
  forall pre s post, t = pre ++ s :: post -> exn_of s <> None -> post = [].
Proof.
  induction 1 as [r | line k t Ht IH | prompt k reply t Ht IH | prompt k e
                 | k u t Ht IH | c k answer t Ht IH | c k e | e];
    intros pre s post E Hs;
    destruct pre as [| s' pre]; cbn [app] in E;
    try discriminate E;
    try (injection E as <- E; try (contradiction Hs; reflexivity);
         try (symmetry; exact E); eauto; fail);
    try (injection E as _ E; destruct pre; discriminate E).
Qed.

Section WithLibrary.
Context {lib : PyLib}.

(** *** Executions are runs of the tree *)

Lemma exec_traces {R} (p : prog R) (w : world) : traces p (fst (exec p w)).
Proof.
  revert w. induction p as [r | line k IH | prompt k IH | k IH | c k IH | e];
    intros w; cbn [exec].
  - constructor.
  - specialize (IH (write (Line line) w)).
    destruct (exec k (write (Line line) w)) as [t out]. cbn in *.
    constructor. assumption.
  - destruct (input prompt w) as [[reply | e] w'].
    + specialize (IH reply w'). destruct (exec (k reply) w') as [t out].
      cbn in *. constructor. assumption.
    + cbn. constructor.
  - specialize (IH (entropy w (drawn w)) (drawing w)).
    destruct (exec (k (entropy w (drawn w))) (drawing w)) as [t out].
    cbn in *. constructor. assumption.
  - destruct (perform c w) as [[answer | e] w'].
    + specialize (IH answer w'). destruct (exec (k answer) w') as [t out].
      cbn in *. constructor. assumption.
    + cbn. constructor.
  - constructor.
Qed.

(** The result of an execution is the exception its last step raised, or
    a value when that step raised none. *)
Lemma exec_result {R} (p : prog R) (w : world) :
  match final_exn (fst (exec p w)) with
  | Some e => fst (snd (exec p w)) = Raised e
  | None => exists r, fst (snd (exec p w)) = Ok r
  end.
Proof.
  revert w. induction p as [r | line k IH | prompt k IH | k IH | c k IH | e];
    intros w; cbn [exec].
  - cbn. eauto.
  - specialize (IH (write (Line line) w)).
    destruct (exec k (write (Line line) w)) as [t out]. cbn [fst snd] in *.
    rewrite final_exn_cons by reflexivity. assumption.
  - destruct (input prompt w) as [[reply | e] w'].
    + specialize (IH reply w'). destruct (exec (k reply) w') as [t out].
      cbn [fst snd] in *. rewrite final_exn_cons by reflexivity. assumption.
    + reflexivity.
  - specialize (IH (entropy w (drawn w)) (drawing w)).
    destruct (exec (k (entropy w (drawn w))) (drawing w)) as [t out].
    cbn [fst snd] in *. rewrite final_exn_cons by reflexivity. assumption.
  - destruct (perform c w) as [[answer | e] w'].
    + specialize (IH answer w'). destruct (exec (k answer) w') as [t out].
      cbn [fst snd] in *. rewrite final_exn_cons by reflexivity. assumption.
    + reflexivity.
  - reflexivity.
Qed.

(** A stage call that raises ends the execution with its exception: the
    drivers catch nothing. *)
Lemma raising_call_ends_run {R} (p : prog R) (w : world) (pre : list step)
    (c : stage_call) (e : exn) (post : list step) :
  fst (exec p w) = pre ++ CallRaised c e :: post ->
  post = [] /\ fst (snd (exec p w)) = Raised e.
Proof.
  intros Ht.
  assert (Hpost : post = []).
  { eapply (traces_raise_is_last p); [apply exec_traces | exact Ht |].
    discriminate. }
  split; [exact Hpost |]. subst post.
  pose proof (exec_result p w) as Hr.
  rewrite Ht, final_exn_app in Hr. exact Hr.
Qed.

(** *** Fatal stages *)

(** C1: in every execution of either driver, a call of a fatal stage
    (account provisioning, token issuance, card encryption, payment
    registration) that returns [None], or anything else Python takes for
    false, is followed by one printed line and [sys.exit(1)] and by
    nothing else: no later stage is called, and the process ends with
    status 1.  A token request answered with HTTP 500 is such a call
    ([get_jwt_token_http_error]). *)
Theorem fatal_stage_failure_aborts_run (mode : run_mode)
    (env_urls : env_urls_t) (w : world) (pre : list step) (c : stage_call)
    (answer : pyval) (post : list step) :
  fst (exec (driver mode env_urls) w) = pre ++ Called c answer :: post ->
  fatal c = true ->
  truthy answer = false ->
  (exists msg, post = [Said msg; Threw (SystemExit 1)])
  /\ fst (snd (exec (driver mode env_urls) w)) = Raised (SystemExit 1)
  /\ exit_status (fst (snd (exec (driver mode env_urls) w))) = 1%Z.
Proof.
  intros Ht Hc Ha.
  assert (Hpost : exists msg, post = [Said msg; Threw (SystemExit 1)]).
  { pose proof (exec_traces (driver mode env_urls) w) as Htr.
    eapply fatal_failures_abort_at; [| exact Ht | exact Hc | exact Ha].
    destruct mode;
      [apply (auto_fatal env_urls) | apply (manual_fatal env_urls)];
      exact Htr. }
  split; [exact Hpost |].
  destruct Hpost as (msg & ->).
  pose proof (exec_result (driver mode env_urls) w) as Hr.
  rewrite Ht, final_exn_app in Hr. cbn in Hr.
  rewrite Hr. split; reflexivity.
Qed.


(** *** Non-fatal stages *)

(** C2, where the code departs from it: when the transport raises during
    contact patching (a connection failure, a timeout), the error is not
    logged by [handle_api_error] and not swallowed.  [patch_shopper]
    raises [UnboundLocalError] after printing its first line only, and a
    driver that called it stops there, whatever it was going to do next:
    the run consists of that one failed call. *)
Theorem patch_shopper_transport_failure_escapes {R} (env_urls : env_urls_t)
    (shopper_id jwt_token : pyval) (next : pyval -> prog R) (w : world)
    (base : string) (e : exn) :
  getitem env_urls "SHOPPER_API_BASE_URL" = Ok base ->
  (forall req, remote w (sent w) req = Fails e) ->
  is_Exception e = true ->
  exists w',
    exec (Call (PatchShopper env_urls shopper_id jwt_token) next) w
    = ([CallRaised (PatchShopper env_urls shopper_id jwt_token)
          (UnboundLocalError "response")],
       (Raised (UnboundLocalError "response"), w'))
    /\ stdout w'
       = stdout w ++ [Line (nl ++ "Attempting to patch shopper ID: "
                               ++ str shopper_id ++ "...")%string].
Proof.
  intros Hb Hr He.
  destruct (patch_shopper_transport_failure env_urls shopper_id jwt_token w
              base e Hb Hr He) as (w' & E & Hout).
  exists w'. split; [| exact Hout].
  cbn [exec perform]. rewrite E. reflexivity.
Qed.

(** *** Payment registration *)


(** *** Settlement *)



End WithLibrary.
End DriverProperties.

(** ** The properties at work on concrete runs *)
Module Examples.
Import PyStr PyVal ET Http Config Tool Driver Reference Scenario.
Import StageProperties DriverProperties.
Local Open Scope list_scope.

(** The token service answers 500: the run calls account creation and
    token issuance and no other stage, and exits with status 1. *)
Lemma fatal_stage_failure_aborts_run_witness :
  let run := exec (driver Automatic test_urls) (world_of [] token_fails) in
  calls_of (fst run)
  = [CreateShopper test_urls "ecomQA00000000"
       "ecommqatest+00000000@mailinator.com";
     GetJwtToken test_urls (PStr "12345")]
  /\ (exists msg, skipn 5 (fst run) = [Said msg; Threw (SystemExit 1)])
  /\ fst (snd run) = Raised (SystemExit 1)
  /\ exit_status (fst (snd run)) = 1%Z.
Proof.
  split; [vm_compute; reflexivity |].
  apply (fatal_stage_failure_aborts_run Automatic test_urls
           (world_of [] token_fails)
           (firstn 4 (fst (exec (driver Automatic test_urls)
                             (world_of [] token_fails))))
           (GetJwtToken test_urls (PStr "12345")) PNone).
  - vm_compute. reflexivity.
  - reflexivity.
  - reflexivity.
Defined.

(** The services cannot be reached when the contact is patched. *)
Lemma patch_shopper_transport_failure_escapes_witness :
  exists w',
    exec (Call (PatchShopper test_urls (PStr "12345") (PStr "token-1"))
            (fun _ => Call (EncryptCard "4716885367556942") Return))
      (world_of [] [])
    = ([CallRaised (PatchShopper test_urls (PStr "12345") (PStr "token-1"))
          (UnboundLocalError "response")],
       (Raised (UnboundLocalError "response"), w'))
    /\ stdout w'
       = stdout (world_of [] [])
           ++ [Line (nl ++ "Attempting to patch shopper ID: "
                       ++ str (PStr "12345") ++ "...")%string].
Proof.
  apply (patch_shopper_transport_failure_escapes test_urls (PStr "12345")
           (PStr "token-1")
           (fun _ => Call (EncryptCard "4716885367556942") Return)
           (world_of [] [])
           "https://shopper.api.int.test-godaddy.com/v1"
           (ConnectionError "connection refused")).
  - reflexivity.
  - intros req. reflexivity.
  - reflexivity.
Defined.

(** A whole automatic run in which the services go away after the token
    was issued: the run ends in the patch stage, with status 1, and
    neither encryption nor registration is called. *)
Example run_stops_when_patch_cannot_connect :
  let run := exec main (world_of [""] (firstn 2 all_good)) in
  calls_of (fst run)
  = [CreateShopper test_urls "ecomQA00000000"
       "ecommqatest+00000000@mailinator.com";
     GetJwtToken test_urls (PStr "12345");
     PatchShopper test_urls (PStr "12345") (PStr "token-1")]
  /\ fst (snd run) = Raised (UnboundLocalError "response")
  /\ exit_status (fst (snd run)) = 1%Z.
Proof. vm_compute. repeat split; reflexivity. Qed.

(** The creation response is [{}]. *)
Lemma create_shopper_missing_id_returns_text_witness :
  fst (create_shopper test_urls "ecomQA00000000"
         "ecommqatest+00000000@mailinator.com"
         (world_of [] [ok_json (PDict [])]))
  = Ok (PStr "None").
Proof.
  eapply (create_shopper_missing_id_returns_text test_urls "ecomQA00000000"
            "ecommqatest+00000000@mailinator.com"
            (world_of [] [ok_json (PDict [])])).
  - reflexivity.
  - intros req. reflexivity.
  - reflexivity.
  - reflexivity.
  - reflexivity.
Defined.

(** With [{}] for an answer the automatic run goes on and asks a token
    for the account ["None"]. *)
Example run_goes_on_without_shopper_id :
  nth_error
    (calls_of (fst (exec (driver Automatic test_urls)
                      (world_of [] [ok_json (PDict [])]))))
    1
  = Some (GetJwtToken test_urls (PStr "None")).
Proof. vm_compute. reflexivity. Qed.

(** Both token fields present and not empty: the primary one is returned. *)
Lemma get_jwt_token_field_choice_witness :
  fst (get_jwt_token test_urls (PStr "12345")
         (world_of []
            [ok_json (PDict [("jwtToken", PStr "primary-token");
                             ("data", PStr "fallback-token")])]))
  = Ok (PStr "primary-token").
Proof.
  refine (proj1 (get_jwt_token_field_choice test_urls (PStr "12345")
                   (world_of []
                      [ok_json (PDict [("jwtToken", PStr "primary-token");
                                       ("data", PStr "fallback-token")])])
                   "https://sso.test-godaddy.com/v1/api" _
                   [("jwtToken", PStr "primary-token");
                    ("data", PStr "fallback-token")]
                   _ _ _ _)
            (PStr "primary-token") _ _).
  - reflexivity.
  - intros req. reflexivity.
  - reflexivity.
  - reflexivity.
  - reflexivity.
  - reflexivity.
Defined.

(** Both token fields present, the primary one empty: the fallback is
    returned, so C4 as worded does not hold. *)
Lemma token_choice_as_claimed_fails : ~ token_choice_as_claimed.
Proof.
  intros claim.
  specialize (claim Reference.library test_urls (PStr "12345")
                (world_of []
                   [ok_json (PDict [("jwtToken", PStr "");
                                    ("data", PStr "fallback-token")])])
                "https://sso.test-godaddy.com/v1/api"
                {| status_code := 200; reason := "reason";
                   response_url := "url";
                   text := Reference.dumps
                             (PDict [("jwtToken", PStr "");
                                     ("data", PStr "fallback-token")]);
                   json := Ok (PDict [("jwtToken", PStr "");
                                      ("data", PStr "fallback-token")]) |}
                [("jwtToken", PStr ""); ("data", PStr "fallback-token")]
                (PStr "") (PStr "fallback-token")
                eq_refl (fun _ => eq_refl) eq_refl eq_refl eq_refl eq_refl).
  vm_compute in claim. discriminate claim.
Qed.


(** The same for an answer in which the document is escaped once. *)
Example basket_success_escaped_once :
  fst (interpret_basket_response
         ("<Envelope><Body><AddItemResponse><return>"
            ++ escaped_success_document
            ++ "</return></AddItemResponse></Body></Envelope>")%string
         (world_of [] []))
  = Ok success.
Proof. vm_compute. reflexivity. Qed.

(** An answer that is nothing but the return element is not read: the
    return node must lie below the root. *)
Example basket_return_as_root :
  fst (interpret_basket_response
         ("<return>" ++ escaped_success_document ++ "</return>")%string
         (world_of [] []))
  = Ok unparseable_response.
Proof. vm_compute. reflexivity. Qed.

(** An envelope without a return node. *)
Lemma basket_missing_return_unparseable_witness :
  interpret_basket_response "<Envelope><Body></Body></Envelope>"
    (world_of [] [])
  = (Ok unparseable_response,
     printed ["Could not find <return> tag or its content in Basket API response."%string]
       (world_of [] [])).
Proof.
  apply (basket_missing_return_unparseable
           "<Envelope><Body></Body></Envelope>" (world_of [] [])
           (Element "Envelope" None [Element "Body" None []])).
  - vm_compute. reflexivity.
  - left. split; reflexivity.
Defined.




End Examples.
